(** * Notes API (database/notes_api/server.js): the request handlers over
    the [notes] table, and the properties of its specification.

    The embedding follows server.js handler by handler.  A handler is an
    async function that validates its input, issues one statement (or a
    write followed by a read-back) through [runAsync], [getAsync] or
    [allAsync], and sends exactly one response.  Here a handler is a
    function from the request and the store to the response and the new
    store; the statements are the ones the source passes as SQL text.

    What lies outside the file and is taken as given:
    - [Number(req.params.id)]: a request carries the Number value of its
      route parameter (type [number]);
    - [new Date()]: a create request is handled at a clock reading, the
      time value in milliseconds since the epoch;
    - SQLite: the table is a finite map from rowid to the other columns;
      a string bound to a statement is stored as UTF-8 text, in which a
      surrogate code unit without its partner becomes U+FFFD and all
      other text is kept, and is read back as such; statements do not
      fail (the handlers' [catch] branches answer 500 to failures of the
      storage engine, which have no counterpart here);
    - numbers have no limits of size or precision: a rowid is an integer,
      a Number is a rational;
    - each handler runs from its first statement to its response without
      another request in between. *)

From Stdlib Require Import ZArith NArith QArith Ascii String.
From stdpp Require Import gmap list sorting.

Local Open Scope Z_scope.

(* ===================================================================== *)
(** * JavaScript values *)
(* ===================================================================== *)

Module JS.

(** A string is its sequence of UTF-16 code units. *)
Definition jsstring := list N.

(** A literal of the source, written in ASCII. *)
Definition js (s : string) : jsstring :=
  N_of_ascii <$> list_ascii_of_string s.

(** WhiteSpace and LineTerminator code points, the ones
    [String.prototype.trim] strips.  All of them are in the basic plane,
    so the test is on one code unit. *)
Definition is_white_space (c : N) : bool :=
  ((9 <=? c) && (c <=? 13)           (* TAB, LF, VT, FF, CR *)
   || (c =? 32)                      (* SPACE *)
   || (c =? 160)                     (* NO-BREAK SPACE *)
   || (c =? 5760)                    (* OGHAM SPACE MARK *)
   || (8192 <=? c) && (c <=? 8202)   (* EN QUAD .. HAIR SPACE *)
   || (c =? 8232) || (c =? 8233)     (* LINE and PARAGRAPH SEPARATOR *)
   || (c =? 8239)                    (* NARROW NO-BREAK SPACE *)
   || (c =? 8287)                    (* MEDIUM MATHEMATICAL SPACE *)
   || (c =? 12288)                   (* IDEOGRAPHIC SPACE *)
   || (c =? 65279))%N.               (* ZERO WIDTH NO-BREAK SPACE *)

Fixpoint trimStart (s : jsstring) : jsstring :=
  match s with
  | [] => []
  | c :: s' => if is_white_space c then trimStart s' else s
  end.

Definition trimEnd (s : jsstring) : jsstring :=
  reverse (trimStart (reverse s)).

(** [s.trim()] *)
Definition trim (s : jsstring) : jsstring := trimEnd (trimStart s).

(** Surrogate code units: a high one and the low one that follows it
    encode a code point beyond the basic plane. *)
Definition is_high_surrogate (c : N) : bool :=
  ((55296 <=? c) && (c <=? 56319))%N.      (* D800 .. DBFF *)

Definition is_low_surrogate (c : N) : bool :=
  ((56320 <=? c) && (c <=? 57343))%N.      (* DC00 .. DFFF *)

(** [s.toWellFormed()]: every surrogate code unit that is not part of a
    pair is replaced by U+FFFD.  This is what the encoding of a string as
    UTF-8 and back makes of it. *)
Fixpoint toWellFormed (s : jsstring) : jsstring :=
  match s with
  | [] => []
  | c :: s' =>
      if is_high_surrogate c then
        match s' with
        | d :: s'' =>
            if is_low_surrogate d then c :: d :: toWellFormed s''
            else 65533%N :: toWellFormed s'
        | [] => [65533%N]
        end
      else if is_low_surrogate c then 65533%N :: toWellFormed s'
      else c :: toWellFormed s'
  end.

(** [s.isWellFormed()]: no surrogate code unit is without its partner. *)
Fixpoint isWellFormed (s : jsstring) : bool :=
  match s with
  | [] => true
  | c :: s' =>
      if is_high_surrogate c then
        match s' with
        | d :: s'' => is_low_surrogate d && isWellFormed s''
        | [] => false
        end
      else negb (is_low_surrogate c) && isWellFormed s'
  end.

(** A Number value: NaN, an infinity, or a finite value.  Every double is
    a rational; the handlers only test a Number for being an integer and
    for its sign. *)
Inductive number :=
| NaN
| Infinity (negative : bool)
| Finite (q : Q).

Definition of_Z (z : Z) : number := Finite (inject_Z z).

(** [Number.isInteger(x)] *)
Definition isInteger (x : number) : bool :=
  match x with
  | Finite q => Qnum q mod Zpos (Qden q) =? 0
  | _ => false
  end.

(** [x <= 0]; a comparison with NaN is false. *)
Definition le_zero (x : number) : bool :=
  match x with
  | NaN => false
  | Infinity negative => negative
  | Finite q => Qnum q <=? 0
  end.

(** The integer an integral Number is. *)
Definition to_Z (x : number) : Z :=
  match x with
  | Finite q => Qnum q / Zpos (Qden q)
  | _ => 0
  end.

#[local] Set Warnings "-register-all".

(** The values a JSON body is made of, and [undefined], which reading an
    absent property gives. *)
Inductive value :=
| VUndefined
| VNull
| VBool (b : bool)
| VNumber (x : number)
| VString (s : jsstring)
| VArray (items : list value)
| VObject (props : list (jsstring * value)).

(** [typeof v === "string"] *)
Definition is_string (v : value) : bool :=
  match v with VString _ => true | _ => false end.

(** [v !== undefined] *)
Definition is_defined (v : value) : bool :=
  match v with VUndefined => false | _ => true end.

(** ToBoolean, as [||] applies it. *)
Definition truthy (v : value) : bool :=
  match v with
  | VUndefined | VNull => false
  | VBool b => b
  | VNumber NaN => false
  | VNumber (Infinity _) => true
  | VNumber (Finite q) => negb (Qnum q =? 0)
  | VString s => negb (length s =? 0)%nat
  | VArray _ | VObject _ => true
  end.

Fixpoint lookup_prop (k : jsstring) (props : list (jsstring * value)) : value :=
  match props with
  | [] => VUndefined
  | (k', v) :: rest => if decide (k = k') then v else lookup_prop k rest
  end.

(** [v[k]] as destructuring reads it, for the keys "title" and "content":
    only an object of the body can have them; arrays and primitives have
    no such property. *)
Definition get (v : value) (k : jsstring) : value :=
  match v with
  | VObject props => lookup_prop k props
  | _ => VUndefined
  end.

(** [{}] *)
Definition empty_object : value := VObject [].

(** [v || {}] *)
Definition or_empty (v : value) : value :=
  if truthy v then v else empty_object.

(** ** [Date.prototype.toISOString] *)

Definition msPerDay : Z := 86400000.

(** Day number and time within the day of a time value. *)
Definition Day (t : Z) : Z := t / msPerDay.
Definition TimeWithinDay (t : Z) : Z := t mod msPerDay.

(** Days counted from 0000-03-01 fall in eras of 400 years (146097
    days).  The year of its era a day of the era falls in, years beginning
    on March 1, and the days of the era before that year. *)
Definition year_of_era (doe : Z) : Z :=
  (doe - doe / 1460 + doe / 36524 - doe / 146096) / 365.

Definition days_before_year (yoe : Z) : Z := 365 * yoe + yoe / 4 - yoe / 100.

(** Month (1..12) and day of the month (1..31) of a day of such a year,
    with 1 in front for January and February, which belong to the next
    calendar year, and 0 for the other months. *)
Definition year_date (doy : Z) : Z * Z * Z :=
  let mp := (5 * doy + 2) / 153 in
  let d := doy - (153 * mp + 2) / 5 + 1 in
  let m := if mp <? 10 then mp + 3 else mp - 9 in
  (if m <=? 2 then 1 else 0, m, d).

(** Year, month and day of the month of a day number counted from
    1970-01-01, in the proleptic Gregorian calendar. *)
Definition civil (day : Z) : Z * Z * Z :=
  let z := day + 719468 in
  let era := z / 146097 in
  let doe := z mod 146097 in
  let yoe := year_of_era doe in
  let '(y, m, d) := year_date (doe - days_before_year yoe) in
  (era * 400 + yoe + y, m, d).

Definition digit (d : Z) : N := (48 + Z.to_N d)%N.

(** The last [w] decimal digits of [n], most significant first. *)
Fixpoint pad (w : nat) (n : Z) : jsstring :=
  match w with
  | O => []
  | S w' => pad w' (n / 10) ++ [digit (n mod 10)]
  end.

(** Four digits for the years 0 to 9999, a sign and six digits for the
    others. *)
Definition year_string (y : Z) : jsstring :=
  if (0 <=? y) && (y <=? 9999) then pad 4 y
  else (if y <? 0 then js "-" else js "+") ++ pad 6 (Z.abs y).

Definition toISOString (t : Z) : jsstring :=
  let '(y, m, d) := civil (Day t) in
  let ms := TimeWithinDay t in
  year_string y ++ js "-" ++ pad 2 m ++ js "-" ++ pad 2 d ++ js "T"
  ++ pad 2 (ms / 3600000) ++ js ":" ++ pad 2 (ms / 60000 mod 60) ++ js ":"
  ++ pad 2 (ms / 1000 mod 60) ++ js "." ++ pad 3 (ms mod 1000) ++ js "Z".

(** Code-unit order on strings. *)
Fixpoint text_compare (a b : jsstring) : comparison :=
  match a, b with
  | [], [] => Eq
  | [], _ :: _ => Lt
  | _ :: _, [] => Gt
  | x :: a', y :: b' =>
      match (x ?= y)%N with
      | Eq => text_compare a' b'
      | c => c
      end
  end.

End JS.

Import JS.


(* ===================================================================== *)
(** * The [notes] table *)
(* ===================================================================== *)

Module Sqlite.

(** The columns of a row besides [id]. *)
Record row := Row {
  title : jsstring;
  content : jsstring;
  created_at : jsstring
}.

(** [id INTEGER PRIMARY KEY AUTOINCREMENT]: the table maps a rowid to its
    row, and [seq] is the table's entry of sqlite_sequence, the largest
    rowid the table has ever held (0 before the first insert). *)
Record store := Store {
  notes : gmap Z row;
  seq : Z
}.

(** The database after [initSchema] on a new file. *)
Definition empty_store : store := Store ∅ 0.

(** The largest rowid of the table. *)
Definition max_rowid (m : gmap Z row) : option Z :=
  foldr (λ k acc, Some (from_option (Z.max k) k acc)) None (map_to_list m).*1.

(** The rowid an insert gets: one more than the largest rowid of the
    table (1 for an empty table), and more than every rowid the table
    has held before. *)
Definition next_rowid (s : store) : Z :=
  Z.max (from_option (λ k, k + 1) 1 (max_rowid (notes s))) (seq s + 1).

Inductive column := Title | Content.

(** The statements the handlers pass to [runAsync]. *)
Inductive statement :=
| INSERT (title content created_at : jsstring)
    (* INSERT INTO notes (title, content, created_at) VALUES (?, ?, ?) *)
| UPDATE (updates : list (column * jsstring)) (id : Z)
    (* UPDATE notes SET <updates> WHERE id = ? *)
| DELETE (id : Z).
    (* DELETE FROM notes WHERE id = ? *)

(** What [runAsync] resolves to.  [lastID] is read after an INSERT
    only. *)
Record run_result := RunResult { lastID : Z; changes : Z }.

(** A string parameter as the TEXT the statement is given: the string
    encoded as UTF-8, which is what a column holds and what a query reads
    back. *)
Definition bind_text (v : jsstring) : jsstring := toWellFormed v.

Definition assign (r : row) (u : column * jsstring) : row :=
  match u.1 with
  | Title => Row (bind_text u.2) (content r) (created_at r)
  | Content => Row (title r) (bind_text u.2) (created_at r)
  end.

(** The SET clause, assignments applied left to right. *)
Definition set_columns (updates : list (column * jsstring)) (r : row) : row :=
  foldl assign r updates.

Definition runAsync (sql : statement) (s : store) : run_result * store :=
  match sql with
  | INSERT t c at_ =>
      let id := next_rowid s in
      (RunResult id 1,
       Store (<[id := Row (bind_text t) (bind_text c) (bind_text at_)]>
                (notes s)) id)
  | UPDATE updates id =>
      match notes s !! id with
      | Some r =>
          (RunResult 0 1, Store (<[id := set_columns updates r]> (notes s)) (seq s))
      | None => (RunResult 0 0, s)
      end
  | DELETE id =>
      match notes s !! id with
      | Some _ => (RunResult 0 1, Store (delete id (notes s)) (seq s))
      | None => (RunResult 0 0, s)
      end
  end.

(** [SELECT id, title, content, created_at FROM notes WHERE id = ?]
    through [getAsync]: the row, or nothing ([undefined]). *)
Definition getAsync (id : Z) (s : store) : option (Z * row) :=
  (λ r, (id, r)) <$> notes s !! id.

(** [ORDER BY created_at DESC, id DESC]: [a] is not after [b].  The
    column is compared as text; on the timestamps the service stores,
    which are ASCII, the collation of the store is the order of code
    units. *)
Definition order_by (a b : Z * row) : bool :=
  match text_compare (created_at a.2) (created_at b.2) with
  | Gt => true
  | Eq => b.1 <=? a.1
  | Lt => false
  end.

(** [SELECT id, title, content, created_at FROM notes
     ORDER BY created_at DESC, id DESC] through [allAsync]. *)
Definition allAsync (s : store) : list (Z * row) :=
  merge_sort (λ a b, Is_true (order_by a b)) (map_to_list (notes s)).

End Sqlite.

Import Sqlite.

(* ===================================================================== *)
(** * The handlers *)
(* ===================================================================== *)

(** [res.status(status).json(body)] *)
Record response := Response { status : Z; body : value }.

(** [{ error: msg }] *)
Definition error (msg : string) : value :=
  VObject [(js "error", VString (js msg))].

(** A row as JSON: [{id, title, content, created_at}]. *)
Definition row_json (r : Z * row) : value :=
  VObject [(js "id", VNumber (of_Z r.1));
           (js "title", VString (title r.2));
           (js "content", VString (content r.2));
           (js "created_at", VString (created_at r.2))].

(** What [res.json] is given after [getAsync]. *)
Definition found_json (r : option (Z * row)) : value :=
  from_option row_json VUndefined r.

(** [nowIso()], at the clock reading [clock]. *)
Definition nowIso (clock : Z) : jsstring := toISOString clock.

(** [typeof v !== "string" || v.trim().length === 0] *)
Definition blank (v : value) : bool :=
  match v with
  | VString s => (length (trim s) =? 0)%nat
  | _ => true
  end.

(** [v.trim()], for a [v] that passed the test above. *)
Definition trimmed (v : value) : jsstring :=
  match v with
  | VString s => trim s
  | _ => []
  end.

(** [!Number.isInteger(id) || id <= 0] *)
Definition invalid_id (id : number) : bool :=
  negb (isInteger id) || le_zero id.

(** GET /api/notes *)
Definition list_notes (s : store) : response * store :=
  (Response 200 (VArray (row_json <$> allAsync s)), s).

(** POST /api/notes *)
Definition create_note (clock : Z) (req_body : value) (s : store)
  : response * store :=
  let b := or_empty req_body in
  let title := get b (js "title") in
  let content := get b (js "content") in
  if blank title then (Response 400 (error "title is required"), s)
  else if blank content then (Response 400 (error "content is required"), s)
  else
    let created_at := nowIso clock in
    let '(result, s1) :=
      runAsync (INSERT (trimmed title) (trimmed content) created_at) s in
    let created := getAsync (lastID result) s1 in
    (Response 201 (found_json created), s1).

(** The [updates] and [params] a supplied field adds. *)
Definition push_update (c : column) (v : value)
  (updates : list (column * jsstring)) : list (column * jsstring) :=
  updates ++ [(c, trimmed v)].

(** PUT /api/notes/:id *)
Definition update_note (id : number) (req_body : value) (s : store)
  : response * store :=
  if invalid_id id then (Response 400 (error "invalid id"), s)
  else
    let b := or_empty req_body in
    let title := get b (js "title") in
    let content := get b (js "content") in
    if is_defined title && blank title then
      (Response 400 (error "title must be a non-empty string"), s)
    else
      let updates := if is_defined title then push_update Title title [] else [] in
      if is_defined content && blank content then
        (Response 400 (error "content must be a non-empty string"), s)
      else
        let updates :=
          if is_defined content then push_update Content content updates
          else updates in
        if (length updates =? 0)%nat then
          (Response 400 (error "nothing to update"), s)
        else
          let '(result, s1) := runAsync (UPDATE updates (to_Z id)) s in
          if changes result =? 0 then
            (Response 404 (error "note not found"), s1)
          else
            let updated := getAsync (to_Z id) s1 in
            (Response 200 (found_json updated), s1).

(** [{ deleted: true }] *)
Definition deleted_json : value := VObject [(js "deleted", VBool true)].

(** DELETE /api/notes/:id *)
Definition delete_note (id : number) (s : store) : response * store :=
  if invalid_id id then (Response 400 (error "invalid id"), s)
  else
    let '(result, s1) := runAsync (DELETE (to_Z id)) s in
    if changes result =? 0 then (Response 404 (error "note not found"), s1)
    else (Response 200 deleted_json, s1).

(** The requests of the API.  [PUT] and [DELETE] carry
    [Number(req.params.id)]; [POST] is handled at a clock reading. *)
Inductive request :=
| GET_notes
| POST_notes (clock : Z) (req_body : value)
| PUT_note (id : number) (req_body : value)
| DELETE_note (id : number).

Definition handle (r : request) (s : store) : response * store :=
  match r with
  | GET_notes => list_notes s
  | POST_notes clock b => create_note clock b s
  | PUT_note id b => update_note id b s
  | DELETE_note id => delete_note id s
  end.

(** The store after a sequence of requests, handled one after another. *)
Definition run (rs : list request) (s : store) : store :=
  foldl (λ s r, (handle r s).2) s rs.

(** The states the service can bring a new database to. *)
Definition reachable (s : store) : Prop :=
  ∃ rs, s = run rs empty_store.

(** ** The vocabulary of the properties *)

(** [a] comes strictly before [b] under
    [ORDER BY created_at DESC, id DESC]: a later [created_at], or the same
    one and a larger [id]. *)
Definition strictly_before (a b : Z * row) : Prop :=
  text_compare (created_at b.2) (created_at a.2) = Lt
  ∨ (created_at a.2 = created_at b.2 ∧ b.1 < a.1).

(** [x] occurs in [l] at an earlier position than [y]. *)
Definition listed_before {A} (x y : A) (l : list A) : Prop :=
  ∃ l1 l2 l3, l = l1 ++ x :: l2 ++ y :: l3.

(** A stored text is non-empty and has no surrounding white space. *)
Definition clean (t : jsstring) : Prop := trim t = t ∧ (0 < length t)%nat.

(** Every stored title and content is clean. *)
Definition stored_clean (s : store) : Prop :=
  ∀ id r, notes s !! id = Some r → clean (title r) ∧ clean (content r).

(** The Number [x] is the integer [k]. *)
Definition denotes (x : number) (k : Z) : Prop :=
  match x with
  | Finite q => Qeq q (inject_Z k)
  | _ => False
  end.

(** The identity is a positive integer. *)
Definition positive_integer (x : number) : Prop :=
  ∃ k, 0 < k ∧ denotes x k.

(** The shape of an ISO 8601 timestamp in UTC as [toISOString] writes
    it: YYYY-MM-DDTHH:mm:ss.sssZ, the year in four digits or, signed, in
    six. *)
Definition is_digit (c : N) : bool := ((48 <=? c) && (c <=? 57))%N.

Definition digits (w : nat) (l : jsstring) : Prop :=
  length l = w ∧ Forall (λ c, is_digit c = true) l.

Definition iso_8601_utc (s : jsstring) : Prop :=
  ∃ y mo d h mi se ms,
    s = y ++ js "-" ++ mo ++ js "-" ++ d ++ js "T"
        ++ h ++ js ":" ++ mi ++ js ":" ++ se ++ js "." ++ ms ++ js "Z"
    ∧ (digits 4 y
       ∨ ∃ y6, (y = js "+" ++ y6 ∨ y = js "-" ++ y6) ∧ digits 6 y6)
    ∧ digits 2 mo ∧ digits 2 d
    ∧ digits 2 h ∧ digits 2 mi ∧ digits 2 se ∧ digits 3 ms.

(** The body of an update passes the checks of the handler: a supplied
    field is a string that is not blank, and a field is supplied. *)
Definition accepted_field (v : value) : Prop :=
  v = VUndefined ∨ ∃ t, v = VString t ∧ trim t ≠ [].

Definition accepted_update (b : value) : Prop :=
  accepted_field (get b (js "title"))
  ∧ accepted_field (get b (js "content"))
  ∧ (get b (js "title") ≠ VUndefined ∨ get b (js "content") ≠ VUndefined).

(** The row an accepted update makes of the row [old]. *)
Definition patch (b : value) (old : row) : row :=
  Row (if is_defined (get b (js "title"))
       then toWellFormed (trimmed (get b (js "title"))) else title old)
      (if is_defined (get b (js "content"))
       then toWellFormed (trimmed (get b (js "content"))) else content old)
      (created_at old).

(** What a request can do to the store: nothing, insert a row of clean
    texts and a timestamp under the next rowid, replace the title or the
    content of a row by a clean text, or delete a row. *)
Inductive step (s : store) : store → Prop :=
| step_none : step s s
| step_insert t c at_ :
    clean t → clean c → iso_8601_utc at_ →
    step s (Store (<[next_rowid s := Row t c at_]> (notes s)) (next_rowid s))
| step_update k old new :
    notes s !! k = Some old →
    created_at new = created_at old →
    title new = title old ∨ clean (title new) →
    content new = content old ∨ clean (content new) →
    step s (Store (<[k := new]> (notes s)) (seq s))
| step_delete k :
    step s (Store (delete k (notes s)) (seq s)).

(** Every stored created_at is a timestamp. *)
Definition stored_stamped (s : store) : Prop :=
  ∀ id r, notes s !! id = Some r → iso_8601_utc (created_at r).

(** The store has given out the rowid [k], and the row under [k], as
    long as there is one, was created at [at_]. *)
Definition remembers (k : Z) (at_ : jsstring) (s : store) : Prop :=
  k ≤ seq s ∧ ∀ r, notes s !! k = Some r → created_at r = at_.

(** ** The scenario of the specification *)

Definition groceries : value :=
  VObject [(js "title", VString (js "Groceries"));
           (js "content", VString (js "Milk, eggs"))].

Definition more_groceries : value :=
  VObject [(js "content", VString (js "Milk, eggs, bread"))].

(** The store after [POST groceries] at 2026-01-19T12:34:56.789Z. *)
Definition one_note : store :=
  Store {[ 1 := Row (js "Groceries") (js "Milk, eggs")
                    (js "2026-01-19T12:34:56.789Z") ]} 1.

(** ** The calendar *)

(** The time values of the years 0000 to 9999, which [toISOString]
    writes with a year of four digits. *)
Definition four_digit_years (t : Z) : Prop :=
  -62167219200000 ≤ t ≤ 253402300799999.

(** The order of dates (year, month, day). *)
Definition date_compare (a b : Z * Z * Z) : comparison :=
  match a.1.1 ?= b.1.1 with
  | Eq => match a.1.2 ?= b.1.2 with
          | Eq => a.2 ?= b.2
          | c => c
          end
  | c => c
  end.

Definition is_date (a : Z * Z * Z) : bool :=
  (1 <=? a.1.2) && (a.1.2 <=? 12) && (1 <=? a.2) && (a.2 <=? 31).

(** The [n] years from [y] on begin and end where [year_of_era] says. *)
Fixpoint years_agree (n : nat) (y : Z) : bool :=
  match n with
  | O => true
  | S n' =>
      (year_of_era (days_before_year y) =? y)
      && (year_of_era (days_before_year (y + 1) - 1) =? y)
      && years_agree n' (y + 1)
  end.

(** The [n] days of a year from [doy] on are dates, each before the
    next. *)
Fixpoint days_ascend (n : nat) (doy : Z) : bool :=
  match n with
  | O => true
  | S n' =>
      is_date (year_date doy)
      && match date_compare (year_date doy) (year_date (doy + 1)) with
         | Lt => true
         | _ => false
         end
      && days_ascend n' (doy + 1)
  end.

(** ** The vocabulary of the further properties *)

(** The rowids of the table are positive, and the sequence has counted
    them. *)
Definition well_formed (s : store) : Prop :=
  0 ≤ seq s ∧ ∀ k r, notes s !! k = Some r → 0 < k ≤ seq s.

(** Two values of a field that the handlers cannot tell apart: the same
    value, or two strings that differ in surrounding white space only. *)
Definition same_up_to_trim (v v' : value) : Prop :=
  v = v' ∨ ∃ t t', v = VString t ∧ v' = VString t' ∧ trim t = trim t'.

(** A note has the identity. *)
Definition stored (id : number) (s : store) : Prop :=
  ∃ k, denotes id k ∧ is_Some (notes s !! k).

(** The body of a create passes the checks of the handler: the title and
    the content are strings that are not blank. *)
Definition accepted_create (b : value) : Prop :=
  ∃ t c, get b (js "title") = VString t ∧ get b (js "content") = VString c
         ∧ trim t ≠ [] ∧ trim c ≠ [].

(** The bodies [{title}], [{content}] and [{title, content}]. *)
Definition title_body (t : jsstring) : value :=
  VObject [(js "title", VString t)].

Definition content_body (c : jsstring) : value :=
  VObject [(js "content", VString c)].

Definition note_body (t c : jsstring) : value :=
  VObject [(js "title", VString t); (js "content", VString c)].

(* ===================================================================== *)
(** * Strings: [trim] and the order on text *)
(* ===================================================================== *)

Section Trim.

Implicit Types s : jsstring.

Lemma trimStart_suffix s : ∃ w, s = w ++ trimStart s.
Proof.
  induction s as [|c s [w IH]]; simpl.
  - by exists [].
  - destruct (is_white_space c).
    + exists (c :: w). by rewrite IH at 1.
    + by exists [].
Qed.

Lemma trimStart_head s c r :
  trimStart s = c :: r → is_white_space c = false.
Proof.
  induction s as [|c' s IH]; simpl; [done|].
  destruct (is_white_space c') eqn:E; [done|]. by intros [= <- _].
Qed.

Lemma trimStart_fixed c r :
  is_white_space c = false → trimStart (c :: r) = c :: r.
Proof. intros E. simpl. by rewrite E. Qed.

Lemma trimStart_idemp s : trimStart (trimStart s) = trimStart s.
Proof.
  destruct (trimStart s) as [|c r] eqn:E; [done|].
  apply trimStart_fixed. by eapply trimStart_head.
Qed.

Lemma trimEnd_prefix s : ∃ w, s = trimEnd s ++ w.
Proof.
  unfold trimEnd. destruct (trimStart_suffix (reverse s)) as [w E].
  exists (reverse w).
  by rewrite <- reverse_app, <- E, reverse_involutive.
Qed.

Lemma trimEnd_idemp s : trimEnd (trimEnd s) = trimEnd s.
Proof. unfold trimEnd. by rewrite reverse_involutive, trimStart_idemp. Qed.

(** Trimming the end keeps the first code unit, so a string with no
    leading white space still has none. *)
Lemma trimStart_trimEnd s :
  trimStart s = s → trimStart (trimEnd s) = trimEnd s.
Proof.
  intros E. destruct (trimEnd s) as [|c r] eqn:Ee; [done|].
  apply trimStart_fixed.
  destruct (trimEnd_prefix s) as [w Ew]. rewrite Ee in Ew.
  rewrite Ew in E. exact (trimStart_head _ c (r ++ w) E).
Qed.

Lemma trim_idemp s : trim (trim s) = trim s.
Proof.
  unfold trim.
  rewrite (trimStart_trimEnd (trimStart s)) by apply trimStart_idemp.
  apply trimEnd_idemp.
Qed.

End Trim.

Section TextOrder.

Implicit Types a b c : jsstring.

Lemma text_compare_refl a : text_compare a a = Eq.
Proof. induction a as [|x a IH]; simpl; [done|]. by rewrite N.compare_refl. Qed.

Lemma text_compare_eq a b : text_compare a b = Eq → a = b.
Proof.
  revert b. induction a as [|x a IH]; intros [|y b]; simpl; try done.
  destruct (x ?= y)%N eqn:E; try done.
  apply N.compare_eq in E. intros ?%IH. by subst.
Qed.

Lemma text_compare_antisym a b :
  text_compare b a = CompOpp (text_compare a b).
Proof.
  revert b. induction a as [|x a IH]; intros [|y b]; simpl; try done.
  rewrite (N.compare_antisym x y).
  destruct (x ?= y)%N; simpl; auto.
Qed.

Lemma text_compare_Lt_trans a b c :
  text_compare a b = Lt → text_compare b c = Lt → text_compare a c = Lt.
Proof.
  revert b c. induction a as [|x a IH]; intros [|y b] [|z c]; simpl; try done.
  destruct (x ?= y)%N eqn:Exy; try done.
  - apply N.compare_eq in Exy. subst y.
    destruct (x ?= z)%N; try done. apply IH.
  - destruct (y ?= z)%N eqn:Eyz; try done.
    + apply N.compare_eq in Eyz. subst z. by rewrite Exy.
    + intros _ _. rewrite N.compare_lt_iff in Exy, Eyz.
      assert ((x ?= z)%N = Lt) as -> by (rewrite N.compare_lt_iff; lia). done.
Qed.

Lemma text_compare_Gt a b : text_compare a b = Gt ↔ text_compare b a = Lt.
Proof. rewrite (text_compare_antisym a b). destruct (text_compare a b); naive_solver. Qed.

End TextOrder.

(* ===================================================================== *)
(** * The calendar: later days have later dates *)
(* ===================================================================== *)

Section Calendar.

Implicit Types (d y z e : Z).

Lemma year_of_era_next d : 0 ≤ d → year_of_era d ≤ year_of_era (d + 1).
Proof. intros H. unfold year_of_era. Z.div_mod_to_equations; lia. Qed.

Lemma year_of_era_mono d d' :
  0 ≤ d ≤ d' → year_of_era d ≤ year_of_era d'.
Proof.
  intros [H0 Hle]. revert d' Hle.
  apply (Z.le_ind (λ d', year_of_era d ≤ year_of_era d'));
    [solve_proper | lia |].
  intros d' Hle IH. pose proof (year_of_era_next d'). rewrite <- Z.add_1_r. lia.
Qed.

Lemma days_before_year_next y :
  0 ≤ y → 365 ≤ days_before_year (y + 1) - days_before_year y ≤ 366.
Proof. intros H. unfold days_before_year. Z.div_mod_to_equations; lia. Qed.

Lemma days_before_year_mono y y' :
  0 ≤ y ≤ y' → days_before_year y ≤ days_before_year y'.
Proof.
  intros [H0 Hle]. revert y' Hle.
  apply (Z.le_ind (λ y', days_before_year y ≤ days_before_year y'));
    [solve_proper | lia |].
  intros y' Hle IH. pose proof (days_before_year_next y').
  rewrite <- Z.add_1_r. lia.
Qed.

Lemma year_of_era_range d : 0 ≤ d ≤ 146096 → 0 ≤ year_of_era d ≤ 399.
Proof. intros H. unfold year_of_era. Z.div_mod_to_equations; lia. Qed.

Lemma years_agree_spec n y0 y :
  years_agree n y0 = true → y0 ≤ y < y0 + Z.of_nat n →
  year_of_era (days_before_year y) = y
  ∧ year_of_era (days_before_year (y + 1) - 1) = y.
Proof.
  revert y0. induction n as [|n IH]; intros y0 Hn Hy; [lia|].
  simpl in Hn. apply andb_prop in Hn as [[H1 H2]%andb_prop Hn].
  destruct (decide (y = y0)) as [-> | Hne].
  - by rewrite !Z.eqb_eq in H1, H2.
  - apply (IH (y0 + 1)); [done | lia].
Qed.

Lemma era_years_agree : years_agree 400 0 = true.
Proof. vm_compute. reflexivity. Qed.

(** A day of the era lies within the year [year_of_era] gives it. *)
Lemma year_of_era_bounds d :
  0 ≤ d < 146096 →
  days_before_year (year_of_era d) ≤ d
  < days_before_year (year_of_era d + 1).
Proof.
  intros Hd. pose proof (year_of_era_range d) as Hy.
  split.
  - destruct (Z.le_gt_cases (days_before_year (year_of_era d)) d) as [|Hlt];
      [done | exfalso].
    assert (1 ≤ year_of_era d) as H1.
    { destruct (decide (year_of_era d = 0)) as [E | ?]; [|lia].
      rewrite E in Hlt. change (days_before_year 0) with 0 in Hlt. lia. }
    destruct (years_agree_spec _ _ (year_of_era d - 1) era_years_agree)
      as [_ Hend]; [lia|].
    replace (year_of_era d - 1 + 1) with (year_of_era d) in Hend by lia.
    pose proof (year_of_era_mono d (days_before_year (year_of_era d) - 1)).
    lia.
  - destruct (Z.le_gt_cases (days_before_year (year_of_era d + 1)) d)
      as [Hle|]; [exfalso | done].
    destruct (decide (year_of_era d = 399)) as [E | ?].
    { rewrite E in Hle. change (days_before_year (399 + 1)) with 146096 in Hle.
      lia. }
    destruct (years_agree_spec _ _ (year_of_era d + 1) era_years_agree)
      as [Hbegin _]; [lia|].
    pose proof (days_before_year_mono 0 (year_of_era d + 1)).
    change (days_before_year 0) with 0 in *.
    pose proof (year_of_era_mono (days_before_year (year_of_era d + 1)) d).
    lia.
Qed.

Lemma days_ascend_spec n z0 z :
  days_ascend n z0 = true → z0 ≤ z < z0 + Z.of_nat n →
  is_date (year_date z) = true
  ∧ date_compare (year_date z) (year_date (z + 1)) = Lt.
Proof.
  revert z0. induction n as [|n IH]; intros z0 Hn Hz; [lia|].
  simpl in Hn. apply andb_prop in Hn as [[Hd Hc]%andb_prop Hn].
  destruct (decide (z = z0)) as [-> | Hne].
  - split; [done|]. by destruct (date_compare _ _).
  - apply (IH (z0 + 1)); [done | lia].
Qed.

Lemma year_ascends : days_ascend 365 0 = true.
Proof. vm_compute. reflexivity. Qed.

Lemma date_compare_shift (p q : Z * Z * Z) e :
  date_compare (e + p.1.1, p.1.2, p.2) (e + q.1.1, q.1.2, q.2)
  = date_compare p q.
Proof. unfold date_compare. simpl. by rewrite Z.add_compare_mono_l. Qed.

(** The calendar repeats every 400 years, which are 146097 days. *)
Lemma civil_era z e :
  civil (z + 146097 * e)
  = (400 * e + (civil z).1.1, (civil z).1.2, (civil z).2).
Proof.
  unfold civil.
  replace (z + 146097 * e + 719468) with (z + 719468 + e * 146097) by lia.
  rewrite Z.div_add, Z.mod_add by lia.
  destruct (year_date _) as [[y m] d]. simpl. f_equal. f_equal. lia.
Qed.

Lemma civil_of_era_day d :
  0 ≤ d < 146097 →
  civil (d - 719468)
  = let p := year_date (d - days_before_year (year_of_era d)) in
    (year_of_era d + p.1.1, p.1.2, p.2).
Proof.
  intros Hd. unfold civil.
  replace (d - 719468 + 719468) with d by lia.
  rewrite Z.div_small, Z.mod_small by lia.
  by destruct (year_date _) as [[y m] x].
Qed.

(** Within an era, the next day is the next day of the same year or the
    first day of the next year. *)
Lemma year_of_era_step d :
  0 ≤ d → d + 1 < 146096 →
  let doy d := d - days_before_year (year_of_era d) in
  0 ≤ doy d ≤ 365
  ∧ ((year_of_era (d + 1) = year_of_era d ∧ doy (d + 1) = doy d + 1
      ∧ doy d ≤ 364)
     ∨ (year_of_era (d + 1) = year_of_era d + 1 ∧ doy (d + 1) = 0
        ∧ 364 ≤ doy d)).
Proof.
  intros H0 H1. simpl.
  pose proof (year_of_era_bounds d) as Hb.
  pose proof (year_of_era_bounds (d + 1)) as Hb'.
  pose proof (year_of_era_next d H0) as Hle.
  pose proof (year_of_era_range d) as Hy.
  pose proof (year_of_era_range (d + 1)) as Hy'.
  pose proof (days_before_year_next (year_of_era d)) as Hn.
  pose proof (days_before_year_next (year_of_era (d + 1))) as Hn'.
  split; [lia|].
  destruct (decide (year_of_era (d + 1) = year_of_era d)) as [E | Hne].
  - left. rewrite E in *. lia.
  - right.
    pose proof (days_before_year_mono (year_of_era d + 1)
                  (year_of_era (d + 1))) as Hm.
    destruct (decide (year_of_era (d + 1) = year_of_era d + 1)) as [E | Hne'].
    + rewrite E in *. lia.
    + pose proof (days_before_year_mono (year_of_era d + 2)
                    (year_of_era (d + 1))) as Hm2.
      pose proof (days_before_year_next (year_of_era d + 1)) as Hn2.
      replace (year_of_era d + 1 + 1) with (year_of_era d + 2) in Hn2 by lia.
      lia.
Qed.

Lemma era_day_next d :
  0 ≤ d < 146097 →
  is_date (civil (d - 719468)) = true
  ∧ date_compare (civil (d - 719468)) (civil (d - 719468 + 1)) = Lt.
Proof.
  intros Hd.
  destruct (decide (d = 146096)) as [-> | ?]; [by vm_compute|].
  destruct (decide (d = 146095)) as [-> | ?]; [by vm_compute|].
  replace (d - 719468 + 1) with (d + 1 - 719468) by lia.
  rewrite !civil_of_era_day by lia. cbv zeta.
  destruct (year_of_era_step d) as [Hdoy Hstep]; [lia | lia |].
  cbv zeta in Hdoy, Hstep.
  destruct Hstep as [(-> & -> & Hlt) | (-> & -> & Hge)].
  - rewrite date_compare_shift.
    apply (days_ascend_spec _ _ _ year_ascends). lia.
  - change (year_date 0) with (0, 3, 1).
    assert (year_date (d - days_before_year (year_of_era d)) = (1, 2, 28)
            ∨ year_date (d - days_before_year (year_of_era d)) = (1, 2, 29))
      as [-> | ->].
    { assert (d - days_before_year (year_of_era d) = 364
              ∨ d - days_before_year (year_of_era d) = 365) as [-> | ->]
        by lia; auto. }
    all: unfold date_compare; simpl;
      replace (year_of_era d + 1 + 0) with (year_of_era d + 1) by lia;
      by rewrite Z.compare_refl.
Qed.

(** Every day is a date, before the date of the next day. *)
Lemma civil_next z :
  is_date (civil z) = true ∧ date_compare (civil z) (civil (z + 1)) = Lt.
Proof.
  pose proof (Z.div_mod (z + 719468) 146097) as Hz.
  pose proof (Z.mod_pos_bound (z + 719468) 146097) as Hr.
  remember ((z + 719468) / 146097) as e eqn:He.
  remember ((z + 719468) mod 146097) as r eqn:Er.
  assert (z = r - 719468 + 146097 * e) as Ez by lia.
  clear He Er Hz. subst z.
  replace (r - 719468 + 146097 * e + 1) with (r - 719468 + 1 + 146097 * e)
    by lia.
  rewrite !civil_era, date_compare_shift. apply era_day_next. lia.
Qed.

Lemma date_compare_Lt_trans (p q r : Z * Z * Z) :
  date_compare p q = Lt → date_compare q r = Lt → date_compare p r = Lt.
Proof.
  unfold date_compare.
  destruct (Z.compare_spec p.1.1 q.1.1), (Z.compare_spec q.1.1 r.1.1),
           (Z.compare_spec p.1.1 r.1.1); try done; try lia;
  destruct (Z.compare_spec p.1.2 q.1.2), (Z.compare_spec q.1.2 r.1.2),
           (Z.compare_spec p.1.2 r.1.2); try done; try lia;
  rewrite !Z.compare_lt_iff; lia.
Qed.

(** Later days have later dates. *)
Lemma civil_mono z z' : z < z' → date_compare (civil z) (civil z') = Lt.
Proof.
  intros Hlt. apply Z.le_succ_l in Hlt. revert z' Hlt.
  apply (Z.le_ind (λ z', date_compare (civil z) (civil z') = Lt));
    [solve_proper | apply civil_next |].
  intros z' _ IH. eapply date_compare_Lt_trans; [exact IH|].
  apply civil_next.
Qed.

End Calendar.

(* ===================================================================== *)
(** * Timestamps: the text order is the order of time *)
(* ===================================================================== *)

Section Timestamps.

Implicit Types (a b x y : jsstring) (w : nat) (m n t : Z).

Lemma text_compare_app a b x y :
  length a = length b →
  text_compare (a ++ x) (b ++ y)
  = match text_compare a b with Eq => text_compare x y | c => c end.
Proof.
  revert b. induction a as [|c a IH]; intros [|c' b]; simpl; try done.
  intros [= Hl]. destruct (c ?= c')%N; try done. by apply IH.
Qed.

Lemma text_compare_prefix a x y :
  text_compare (a ++ x) (a ++ y) = text_compare x y.
Proof. by rewrite text_compare_app, text_compare_refl. Qed.

Lemma length_pad w n : length (pad w n) = w.
Proof.
  revert n. induction w as [|w IH]; intros n; simpl; [done|].
  rewrite length_app, IH. simpl. lia.
Qed.

Lemma compare_by_digits m n :
  (m ?= n) = match m / 10 ?= n / 10 with
             | Eq => m mod 10 ?= n mod 10
             | c => c
             end.
Proof.
  destruct (Z.compare_spec (m / 10) (n / 10)) as [E | E | E];
    destruct (Z.compare_spec (m mod 10) (n mod 10)) as [E' | E' | E'];
    first [apply Z.compare_eq_iff | apply Z.compare_lt_iff
          | apply Z.compare_gt_iff];
    Z.div_mod_to_equations; lia.
Qed.

Lemma digit_compare m n :
  0 ≤ m < 10 → 0 ≤ n < 10 → (digit m ?= digit n)%N = (m ?= n).
Proof.
  intros Hm Hn. unfold digit.
  destruct (Z.compare_spec m n) as [E | E | E].
  - subst. apply N.compare_refl.
  - apply N.compare_lt_iff. lia.
  - apply N.compare_gt_iff. lia.
Qed.

(** Numbers written with the same number of digits compare as their
    texts do. *)
Lemma pad_compare w m n :
  0 ≤ m < 10 ^ Z.of_nat w → 0 ≤ n < 10 ^ Z.of_nat w →
  text_compare (pad w m) (pad w n) = (m ?= n).
Proof.
  revert m n. induction w as [|w IH]; intros m n Hm Hn.
  - simpl in *. symmetry. apply Z.compare_eq_iff. lia.
  - rewrite Nat2Z.inj_succ, Z.pow_succ_r in Hm, Hn by lia. simpl.
    rewrite text_compare_app by (by rewrite !length_pad).
    rewrite IH by (Z.div_mod_to_equations; lia). simpl.
    rewrite digit_compare by (apply Z.mod_pos_bound; lia).
    rewrite (compare_by_digits m n).
    destruct (m / 10 ?= n / 10); try done.
    by destruct (m mod 10 ?= n mod 10).
Qed.

(** A field of [w] digits and what follows it. *)
Lemma field_compare w m n x y :
  0 ≤ m < 10 ^ Z.of_nat w → 0 ≤ n < 10 ^ Z.of_nat w →
  text_compare (pad w m ++ x) (pad w n ++ y)
  = match m ?= n with Eq => text_compare x y | c => c end.
Proof.
  intros Hm Hn.
  by rewrite text_compare_app, pad_compare by (by rewrite ?length_pad).
Qed.

(** A number lies within the range of its [w] digits. *)
Ltac digits_bound :=
  match goal with
  | |- _ ≤ _ < 10 ^ Z.of_nat ?w =>
      let k := eval vm_compute in (10 ^ Z.of_nat w) in
      change (10 ^ Z.of_nat w) with k;
      Z.div_mod_to_equations; lia
  end.

(** The time of day: hours, minutes, seconds and milliseconds compare as
    the milliseconds of the day do. *)
Lemma time_compare m n :
  0 ≤ m ≤ n → n < msPerDay →
  match m / 3600000 ?= n / 3600000 with
  | Eq => match m / 60000 mod 60 ?= n / 60000 mod 60 with
          | Eq => match m / 1000 mod 60 ?= n / 1000 mod 60 with
                  | Eq => match m mod 1000 ?= n mod 1000 with
                          | Eq => Eq
                          | c => c
                          end
                  | c => c
                  end
          | c => c
          end
  | c => c
  end ≠ Gt.
Proof.
  unfold msPerDay. intros Hm Hn.
  destruct (Z.compare_spec (m / 3600000) (n / 3600000)); [|done|];
    [|exfalso; Z.div_mod_to_equations; lia].
  destruct (Z.compare_spec (m / 60000 mod 60) (n / 60000 mod 60)); [|done|];
    [|exfalso; Z.div_mod_to_equations; lia].
  destruct (Z.compare_spec (m / 1000 mod 60) (n / 1000 mod 60)); [|done|];
    [|exfalso; Z.div_mod_to_equations; lia].
  destruct (Z.compare_spec (m mod 1000) (n mod 1000)); [done|done|].
  exfalso; Z.div_mod_to_equations; lia.
Qed.

Lemma civil_is_date z :
  1 ≤ (civil z).1.2 ≤ 12 ∧ 1 ≤ (civil z).2 ≤ 31.
Proof.
  destruct (civil_next z) as [Hd _]. unfold is_date in Hd.
  apply andb_prop in Hd as [[[H1 H2]%andb_prop H3]%andb_prop H4].
  rewrite !Z.leb_le in *. lia.
Qed.

Lemma four_digit_year t :
  four_digit_years t → 0 ≤ (civil (Day t)).1.1 ≤ 9999.
Proof.
  unfold four_digit_years, Day, msPerDay. intros [Hlo Hhi].
  assert (-719528 ≤ t / 86400000 ≤ 2932896) as [Hl Hh]
    by (Z.div_mod_to_equations; lia).
  split.
  - apply Zle_lt_or_eq in Hl as [Hl | <-]; [|by vm_compute].
    apply civil_mono in Hl. unfold date_compare in Hl.
    change (civil (-719528)) with (0, 1, 1) in Hl. cbn [fst snd] in Hl.
    destruct (Z.compare_spec 0 (civil (t / 86400000)).1.1); try done; lia.
  - apply Zle_lt_or_eq in Hh as [Hh | ->]; [|by vm_compute].
    apply civil_mono in Hh. unfold date_compare in Hh.
    change (civil 2932896) with (9999, 12, 31) in Hh. cbn [fst snd] in Hh.
    destruct (Z.compare_spec (civil (t / 86400000)).1.1 9999); try done; lia.
Qed.

Lemma toISOString_four_digits t :
  four_digit_years t →
  toISOString t
  = pad 4 (civil (Day t)).1.1 ++ js "-" ++ pad 2 (civil (Day t)).1.2
    ++ js "-" ++ pad 2 (civil (Day t)).2 ++ js "T"
    ++ pad 2 (TimeWithinDay t / 3600000) ++ js ":"
    ++ pad 2 (TimeWithinDay t / 60000 mod 60) ++ js ":"
    ++ pad 2 (TimeWithinDay t / 1000 mod 60) ++ js "."
    ++ pad 3 (TimeWithinDay t mod 1000) ++ js "Z".
Proof.
  intros [Hlo Hhi]%four_digit_year. unfold toISOString.
  destruct (civil (Day t)) as [[y m] d]. simpl in Hlo, Hhi.
  unfold year_string.
  by rewrite (proj2 (Z.leb_le 0 y) Hlo), (proj2 (Z.leb_le y 9999) Hhi).
Qed.

(** In the years 0000 to 9999, a later clock reading makes a timestamp
    that is not earlier in the order of text. *)
Lemma toISOString_mono t t' :
  four_digit_years t → four_digit_years t' → t ≤ t' →
  text_compare (toISOString t) (toISOString t') ≠ Gt.
Proof.
  intros Ht Ht' Hle.
  rewrite (toISOString_four_digits t Ht), (toISOString_four_digits t' Ht').
  pose proof (four_digit_year t Ht) as Hy.
  pose proof (four_digit_year t' Ht') as Hy'.
  pose proof (civil_is_date (Day t)) as [Hm Hd].
  pose proof (civil_is_date (Day t')) as [Hm' Hd'].
  pose proof (Z.mod_pos_bound t msPerDay eq_refl) as Hms.
  pose proof (Z.mod_pos_bound t' msPerDay eq_refl) as Hms'.
  fold (TimeWithinDay t) in Hms. fold (TimeWithinDay t') in Hms'.
  assert (Day t < Day t'
          ∨ Day t = Day t' ∧ TimeWithinDay t ≤ TimeWithinDay t') as Hcase.
  { unfold Day, TimeWithinDay, msPerDay in *. Z.div_mod_to_equations. lia. }
  unfold msPerDay in Hms, Hms'.
  repeat (rewrite field_compare, ?text_compare_prefix by digits_bound).
  rewrite text_compare_refl.
  destruct Hcase as [Hlt | [Heq Hle']].
  - apply civil_mono in Hlt. unfold date_compare in Hlt.
    destruct ((civil (Day t)).1.1 ?= (civil (Day t')).1.1); try done.
    destruct ((civil (Day t)).1.2 ?= (civil (Day t')).1.2); try done.
    by rewrite Hlt.
  - rewrite <- Heq, !Z.compare_refl. apply time_compare; [lia|].
    unfold msPerDay. lia.
Qed.

(** [toISOString] at the epoch, at the example of the source
    ([nowIso]: "Example: 2026-01-19T12:34:56.789Z"), at a leap day, before
    the epoch, and at the two ends of the years of four digits. *)
Example toISOString_epoch :
  toISOString 0 = js "1970-01-01T00:00:00.000Z".
Proof. reflexivity. Qed.

Example toISOString_2026 :
  toISOString 1768826096789 = js "2026-01-19T12:34:56.789Z".
Proof. reflexivity. Qed.

Example toISOString_leap_day :
  toISOString 1709251199999 = js "2024-02-29T23:59:59.999Z".
Proof. reflexivity. Qed.

Example toISOString_1969 :
  toISOString (-1) = js "1969-12-31T23:59:59.999Z".
Proof. reflexivity. Qed.

Example toISOString_year_0 :
  toISOString (-62167219200000) = js "0000-01-01T00:00:00.000Z"
  ∧ toISOString (-62167219200001) = js "-000001-12-31T23:59:59.999Z".
Proof. split; reflexivity. Qed.

Example toISOString_year_9999 :
  toISOString 253402300799999 = js "9999-12-31T23:59:59.999Z"
  ∧ toISOString 253402300800000 = js "+010000-01-01T00:00:00.000Z".
Proof. split; reflexivity. Qed.

(** Outside the years of four digits the sign comes first, and the order
    of text is no longer the order of time. *)
Example toISOString_year_10000 :
  text_compare (toISOString 253402300799999) (toISOString 253402300800000)
  = Gt.
Proof. reflexivity. Qed.

End Timestamps.

(* ===================================================================== *)
(** * The table: rowids and the order of a listing *)
(* ===================================================================== *)

Section Order.

Implicit Types a b c : Z * row.

Lemma order_by_total a b : Is_true (order_by a b) ∨ Is_true (order_by b a).
Proof.
  unfold order_by. rewrite (text_compare_antisym (created_at a.2)).
  destruct (text_compare (created_at a.2) (created_at b.2)); simpl; auto.
  destruct (Z.leb_spec b.1 a.1), (Z.leb_spec a.1 b.1); simpl; auto; lia.
Qed.

Lemma order_by_trans a b c :
  Is_true (order_by a b) → Is_true (order_by b c) → Is_true (order_by a c).
Proof.
  unfold order_by.
  destruct (text_compare (created_at a.2) (created_at b.2)) eqn:Eab;
    [|done|];
    (destruct (text_compare (created_at b.2) (created_at c.2)) eqn:Ebc;
     [|done|]).
  - apply text_compare_eq in Eab, Ebc. rewrite Eab, Ebc, text_compare_refl.
    rewrite !Is_true_true, !Z.leb_le. lia.
  - apply text_compare_eq in Eab. by rewrite Eab, Ebc.
  - apply text_compare_eq in Ebc. by rewrite <- Ebc, Eab.
  - apply text_compare_Gt in Eab, Ebc.
    pose proof (text_compare_Lt_trans _ _ _ Ebc Eab) as E.
    apply text_compare_Gt in E. by rewrite E.
Qed.

#[global] Instance order_by_Total : Total (λ a b, Is_true (order_by a b)).
Proof. intros a b. apply order_by_total. Qed.

#[global] Instance order_by_Transitive :
  Transitive (λ a b, Is_true (order_by a b)).
Proof. intros a b c. apply order_by_trans. Qed.

(** Between two rows of different ids the order is strict. *)
Lemma order_by_strict a b :
  a.1 ≠ b.1 → Is_true (order_by a b) → strictly_before a b.
Proof.
  unfold order_by, strictly_before. intros Hne.
  destruct (text_compare (created_at a.2) (created_at b.2)) eqn:E; [| done |].
  - apply text_compare_eq in E. rewrite Is_true_true, Z.leb_le.
    intros ?. right. split; [done | lia].
  - intros _. left. by apply text_compare_Gt.
Qed.

Lemma strictly_before_asym a b : strictly_before a b → ¬ strictly_before b a.
Proof.
  unfold strictly_before. intros [H1 | [E1 L1]] [H2 | [E2 L2]].
  - apply text_compare_Gt in H2. congruence.
  - rewrite E2, text_compare_refl in H1. done.
  - rewrite E1, text_compare_refl in H2. done.
  - lia.
Qed.

End Order.

Section Listing.

Context {A : Type}.
Implicit Types l : list A.

(** In a list sorted by an asymmetric relation, position follows the
    relation. *)
Lemma sorted_listed_before (R : relation A) l x y :
  StronglySorted R l → x ∈ l → y ∈ l → R x y → ¬ R y x →
  listed_before x y l.
Proof.
  intros Hs Hx Hy Hxy Hyx.
  apply list_elem_of_split in Hx as (l1 & l2 & ->).
  apply StronglySorted_app in Hs as (H12 & _ & Hs2).
  apply StronglySorted_cons in Hs2 as [Hx2 _].
  rewrite elem_of_app, elem_of_cons in Hy.
  destruct Hy as [Hy | [-> | Hy]].
  - destruct Hyx. apply H12; [done | by left].
  - done.
  - apply list_elem_of_split in Hy as (l3 & l4 & ->).
    by exists l1, l3, l4.
Qed.

Lemma listed_before_fmap {B} (f : A → B) x y l :
  listed_before x y l → listed_before (f x) (f y) (f <$> l).
Proof.
  intros (l1 & l2 & l3 & ->). exists (f <$> l1), (f <$> l2), (f <$> l3).
  by rewrite fmap_app, fmap_cons, fmap_app, fmap_cons.
Qed.

End Listing.

Section Rowids.

Implicit Types (m : gmap Z row) (s : store).

Lemma max_rowid_list_ge (ks : list Z) k :
  k ∈ ks →
  ∃ M, foldr (λ k acc, Some (from_option (Z.max k) k acc)) None ks = Some M
       ∧ k ≤ M.
Proof.
  induction ks as [|k' ks IH]; [by intros ?%elem_of_nil|].
  rewrite elem_of_cons. simpl. intros [-> | Hk].
  - eexists; split; [done|].
    destruct (foldr _ _ ks); simpl; lia.
  - destruct (IH Hk) as (M & -> & HM). eexists; split; [done|]. simpl. lia.
Qed.

Lemma max_rowid_ge m k r :
  m !! k = Some r → ∃ M, max_rowid m = Some M ∧ k ≤ M.
Proof.
  intros Hk. apply max_rowid_list_ge.
  apply list_elem_of_fmap. exists (k, r). split; [done|].
  by apply elem_of_map_to_list.
Qed.

Lemma next_rowid_gt_seq s : seq s < next_rowid s.
Proof. unfold next_rowid. lia. Qed.

Lemma next_rowid_gt_key s k r : notes s !! k = Some r → k < next_rowid s.
Proof.
  intros (M & E & HM)%max_rowid_ge. unfold next_rowid. rewrite E. simpl. lia.
Qed.

Lemma next_rowid_fresh s : notes s !! next_rowid s = None.
Proof.
  destruct (notes s !! next_rowid s) as [r|] eqn:E; [|done].
  apply next_rowid_gt_key in E. lia.
Qed.

Lemma next_rowid_positive s : 0 ≤ seq s → 0 < next_rowid s.
Proof. pose proof (next_rowid_gt_seq s). lia. Qed.

End Rowids.

Section SelectAll.

Implicit Types (s : store) (l : list (Z * row)).

Lemma allAsync_Permutation s : allAsync s ≡ₚ map_to_list (notes s).
Proof. apply merge_sort_Permutation. Qed.

Lemma elem_of_allAsync s k r : (k, r) ∈ allAsync s ↔ notes s !! k = Some r.
Proof. by rewrite allAsync_Permutation, elem_of_map_to_list. Qed.

Lemma allAsync_NoDup s : NoDup (allAsync s).*1.
Proof. rewrite allAsync_Permutation. apply NoDup_fst_map_to_list. Qed.

Lemma strictly_sorted l :
  StronglySorted (λ a b, Is_true (order_by a b)) l → NoDup l.*1 →
  StronglySorted strictly_before l.
Proof.
  induction 1 as [|a l Hs IH Ha]; simpl; [constructor|].
  rewrite NoDup_cons. intros [Hnotin Hnd]. constructor; [by apply IH|].
  rewrite Forall_forall in Ha |- *. intros b Hb.
  apply order_by_strict; [|by apply Ha].
  intros E. apply Hnotin. rewrite E. apply list_elem_of_fmap. by exists b.
Qed.

Lemma allAsync_sorted s : StronglySorted strictly_before (allAsync s).
Proof.
  apply strictly_sorted; [|apply allAsync_NoDup].
  apply (StronglySorted_merge_sort _).
Qed.

End SelectAll.

(* ===================================================================== *)
(** * Validation *)
(* ===================================================================== *)

Section Validation.

Implicit Types (x : number) (v b : value) (k : Z).

Lemma denotes_to_Z x k : denotes x k → to_Z x = k.
Proof.
  destruct x as [| |[n d]]; simpl; try done.
  unfold Qeq. simpl. intros E. rewrite Z.mul_1_r in E. subst n.
  by apply Z.div_mul.
Qed.

Lemma denotes_isInteger x k : denotes x k → isInteger x = true.
Proof.
  destruct x as [| |[n d]]; simpl; try done.
  unfold Qeq. simpl. intros E. rewrite Z.mul_1_r in E. subst n.
  apply Z.eqb_eq. by apply Z.mod_mul.
Qed.

Lemma isInteger_denotes x : isInteger x = true → denotes x (to_Z x).
Proof.
  destruct x as [| |[n d]]; simpl; try done.
  rewrite Z.eqb_eq. intros E. unfold Qeq. simpl.
  pose proof (Z.div_mod n (Z.pos d)). lia.
Qed.

Lemma denotes_le_zero x k : denotes x k → le_zero x = (k <=? 0).
Proof.
  destruct x as [| |[n d]]; simpl; try done.
  unfold Qeq. simpl. intros E. rewrite Z.mul_1_r in E. subst n.
  destruct (Z.leb_spec k 0), (Z.leb_spec (k * Z.pos d) 0); try done; nia.
Qed.

(** The test of the handlers lets through the positive integers and
    nothing else. *)
Lemma invalid_id_false x : invalid_id x = false ↔ positive_integer x.
Proof.
  unfold invalid_id, positive_integer. split.
  - intros [Hi Hz]%orb_false_elim. apply negb_false_iff in Hi.
    apply isInteger_denotes in Hi. exists (to_Z x). split; [|done].
    rewrite (denotes_le_zero _ _ Hi) in Hz. by apply Z.leb_gt.
  - intros (k & Hk & Hd).
    rewrite (denotes_isInteger _ _ Hd), (denotes_le_zero _ _ Hd). simpl.
    apply Z.leb_gt. lia.
Qed.

Lemma invalid_id_true x : invalid_id x = true ↔ ¬ positive_integer x.
Proof.
  rewrite <- invalid_id_false. destruct (invalid_id x); naive_solver.
Qed.

(** A falsy body is no object, so [|| {}] leaves the fields as they
    are read. *)
Lemma get_or_empty b key : get (or_empty b) key = get b key.
Proof.
  unfold or_empty. destruct b as [| |c|x|t| |]; simpl; try done.
  - by destruct c.
  - destruct x as [| |q]; simpl; try done. by destruct (Qnum q =? 0).
  - by destruct t.
Qed.

Lemma blank_false v :
  blank v = false ↔ ∃ t, v = VString t ∧ trim t ≠ [].
Proof.
  split.
  - destruct v; simpl; try done. intros E. eexists; split; [done|].
    intros E'. by rewrite E' in E.
  - intros (t & -> & Ht). simpl. by destruct (trim t).
Qed.

Lemma trimmed_clean v : blank v = false → clean (trimmed v).
Proof.
  intros (t & -> & Ht)%blank_false. simpl. split; [apply trim_idemp|].
  destruct (trim t); simpl; [done | lia].
Qed.

End Validation.

(* ===================================================================== *)
(** * Text as the store keeps it *)
(* ===================================================================== *)

Section StoredText.

Implicit Types (s u : jsstring) (c : N).

Lemma high_surrogate_not_white_space c :
  is_high_surrogate c = true → is_white_space c = false.
Proof.
  unfold is_high_surrogate, is_white_space.
  intros [Hlo Hhi]%andb_prop. rewrite N.leb_le in Hlo, Hhi.
  repeat apply orb_false_intro;
    first [ apply N.eqb_neq; lia
          | apply andb_false_iff; right; apply N.leb_gt; lia ].
Qed.

Lemma low_surrogate_not_white_space c :
  is_low_surrogate c = true → is_white_space c = false.
Proof.
  unfold is_low_surrogate, is_white_space.
  intros [Hlo Hhi]%andb_prop. rewrite N.leb_le in Hlo, Hhi.
  repeat apply orb_false_intro;
    first [ apply N.eqb_neq; lia
          | apply andb_false_iff; right; apply N.leb_gt; lia ].
Qed.

Lemma toWellFormed_cons c s :
  toWellFormed (c :: s)
  = if is_high_surrogate c then
      match s with
      | d :: s' =>
          if is_low_surrogate d then c :: d :: toWellFormed s'
          else 65533%N :: toWellFormed s
      | [] => [65533%N]
      end
    else if is_low_surrogate c then 65533%N :: toWellFormed s
    else c :: toWellFormed s.
Proof. by destruct s. Qed.

(** The replacement of unpaired surrogates leaves white space where it
    is and makes none. *)
Lemma toWellFormed_white_space s :
  is_white_space <$> toWellFormed s = is_white_space <$> s.
Proof.
  remember (length s) as n eqn:Hn.
  assert (length s ≤ n)%nat as Hle by lia. clear Hn.
  revert s Hle. induction n as [|n IH]; intros [|c s] Hle;
    try done; try (simpl in Hle; lia).
  assert (length s ≤ n)%nat as Hs by (simpl in Hle; lia).
  rewrite toWellFormed_cons.
  destruct (is_high_surrogate c) eqn:Hh.
  - pose proof (high_surrogate_not_white_space c Hh) as Hc.
    destruct s as [|d s]; [by rewrite !fmap_cons, Hc|].
    destruct (is_low_surrogate d) eqn:Hl.
    + rewrite !fmap_cons, IH by (simpl in Hs; lia). done.
    + rewrite (fmap_cons _ 65533%N), IH by done.
      by rewrite (fmap_cons _ c), Hc.
  - destruct (is_low_surrogate c) eqn:Hl.
    + rewrite !fmap_cons, IH by done.
      by rewrite (low_surrogate_not_white_space c Hl).
    + by rewrite !fmap_cons, IH by done.
Qed.

Lemma length_toWellFormed s : length (toWellFormed s) = length s.
Proof.
  rewrite <- (length_fmap is_white_space (toWellFormed s)),
          toWellFormed_white_space.
  apply length_fmap.
Qed.

(** Text in which no surrogate is without its partner is kept. *)
Lemma toWellFormed_fixed s : isWellFormed s = true → toWellFormed s = s.
Proof.
  remember (length s) as n eqn:Hn.
  assert (length s ≤ n)%nat as Hle by lia. clear Hn.
  revert s Hle. induction n as [|n IH]; intros [|c s] Hle;
    try done; try (simpl in Hle; lia).
  assert (length s ≤ n)%nat as Hs by (simpl in Hle; lia).
  rewrite toWellFormed_cons. simpl.
  destruct (is_high_surrogate c) eqn:Hh.
  - destruct s as [|d s]; [done|].
    intros [-> Hw]%andb_prop. rewrite IH; [done | simpl in Hs; lia | done].
  - intros [Hl%negb_true_iff Hw]%andb_prop. by rewrite Hl, IH.
Qed.

Lemma no_surrogate_well_formed s :
  Forall (λ c, (c < 55296)%N) s → isWellFormed s = true.
Proof.
  induction 1 as [|c s Hc _ IH]; simpl; [done|].
  assert (is_high_surrogate c = false) as ->
    by (apply andb_false_iff; left; apply N.leb_gt; lia).
  assert (is_low_surrogate c = false) as ->
    by (apply andb_false_iff; left; apply N.leb_gt; lia).
  done.
Qed.

(** Where the white space of a string is decides what [trim] cuts. *)
Lemma trimStart_white_space s u :
  is_white_space <$> s = is_white_space <$> u →
  is_white_space <$> trimStart s = is_white_space <$> trimStart u.
Proof.
  revert u. induction s as [|c s IH]; intros [|d u]; simpl; try done.
  intros [= Hc Hs]. rewrite <- Hc.
  destruct (is_white_space c) eqn:E; [by apply IH|].
  simpl. by rewrite E, Hc, Hs.
Qed.

Lemma trim_white_space s u :
  is_white_space <$> s = is_white_space <$> u →
  is_white_space <$> trim s = is_white_space <$> trim u.
Proof.
  intros H. unfold trim, trimEnd. rewrite !fmap_reverse. f_equal.
  apply trimStart_white_space. rewrite !fmap_reverse. f_equal.
  by apply trimStart_white_space.
Qed.

(** A string that [trim] does not shorten is one it does not change. *)
Lemma trim_same_length s : length (trim s) = length s → trim s = s.
Proof.
  destruct (trimStart_suffix s) as [w Hw].
  destruct (trimEnd_prefix (trimStart s)) as [w' Hw'].
  fold (trim s) in Hw'. intros Hl.
  assert (length s = (length w + (length (trim s) + length w'))%nat) as Hs
    by (rewrite Hw at 1; rewrite Hw' at 1; by rewrite !length_app).
  destruct w; [|simpl in Hs; lia]. destruct w'; [|simpl in Hs; lia].
  simpl in Hw. rewrite app_nil_r in Hw'. congruence.
Qed.

(** A clean text is stored as a clean text. *)
Lemma toWellFormed_clean s : clean s → clean (toWellFormed s).
Proof.
  intros [Ht Hl]. split; [|by rewrite length_toWellFormed].
  apply trim_same_length.
  rewrite <- (length_fmap is_white_space (trim _)),
          (trim_white_space _ s (toWellFormed_white_space s)),
          length_fmap, Ht.
  by rewrite length_toWellFormed.
Qed.

Lemma pad_ascii w n : Forall (λ c, (c < 128)%N) (pad w n).
Proof.
  revert n. induction w as [|w IH]; intros n; simpl; [constructor|].
  apply Forall_app. split; [apply IH|]. constructor; [|constructor].
  pose proof (Z.mod_pos_bound n 10). unfold digit. lia.
Qed.

(** A timestamp is text in ASCII, which the store keeps as it is. *)
Lemma toISOString_ascii t : Forall (λ c, (c < 128)%N) (toISOString t).
Proof.
  unfold toISOString. destruct (civil (Day t)) as [[y m] d].
  assert (Forall (λ c, (c < 128)%N) (year_string y)) as Hy.
  { unfold year_string. destruct ((0 <=? y) && (y <=? 9999));
      [apply pad_ascii|].
    apply Forall_app. split; [|apply pad_ascii].
    destruct (y <? 0); by repeat constructor. }
  rewrite !Forall_app. repeat split;
    first [ done | apply pad_ascii | by repeat constructor ].
Qed.

Lemma bind_text_nowIso clock : bind_text (nowIso clock) = nowIso clock.
Proof.
  apply toWellFormed_fixed, no_surrogate_well_formed.
  eapply Forall_impl; [apply toISOString_ascii|]. simpl. lia.
Qed.

End StoredText.

(* ===================================================================== *)
(** * What each handler does *)
(* ===================================================================== *)

Section Handlers.

Implicit Types (id : number) (b : value) (s : store) (clock : Z).

Lemma pad_digits w n : digits w (pad w n).
Proof.
  revert n. induction w as [|w IH]; intros n; simpl.
  - by split.
  - destruct (IH (n / 10)) as [Hl Hd]. split.
    + rewrite length_app, Hl. simpl. lia.
    + apply Forall_app. split; [done|]. constructor; [|done].
      pose proof (Z.mod_pos_bound n 10). unfold is_digit, digit.
      apply andb_true_intro. rewrite !N.leb_le. lia.
Qed.

Lemma toISOString_shape t : iso_8601_utc (toISOString t).
Proof.
  unfold toISOString. destruct (civil (Day t)) as [[y m] d].
  eexists (year_string y), _, _, _, _, _, _. split; [reflexivity|].
  repeat split; try apply pad_digits.
  unfold year_string. destruct ((0 <=? y) && (y <=? 9999)).
  - left. apply pad_digits.
  - right. exists (pad 6 (Z.abs y)). split; [|apply pad_digits].
    destruct (y <? 0); auto.
Qed.

(** A create with two strings that are not blank inserts one row under
    the next rowid and answers with it. *)
Lemma create_note_accepted clock b s :
  blank (get b (js "title")) = false →
  blank (get b (js "content")) = false →
  let id := next_rowid s in
  let r := Row (toWellFormed (trimmed (get b (js "title"))))
               (toWellFormed (trimmed (get b (js "content"))))
               (nowIso clock) in
  create_note clock b s
  = (Response 201 (row_json (id, r)), Store (<[id := r]> (notes s)) id).
Proof.
  intros Ht Hc. unfold create_note. rewrite !get_or_empty, Ht, Hc. simpl.
  unfold getAsync. simpl. by rewrite lookup_insert_eq, bind_text_nowIso.
Qed.

Lemma create_note_rejected clock b s :
  blank (get b (js "title")) = true ∨ blank (get b (js "content")) = true →
  ∃ msg, create_note clock b s = (Response 400 (error msg), s).
Proof.
  intros H. unfold create_note. rewrite !get_or_empty.
  destruct (blank (get b (js "title"))); [by eexists|].
  destruct (blank (get b (js "content"))); [by eexists|].
  by destruct H.
Qed.

Lemma accepted_field_checks v :
  accepted_field v ↔ is_defined v && blank v = false.
Proof.
  split.
  - intros [-> | (t & -> & Ht)]; [done|]. simpl. by destruct (trim t).
  - destruct v; simpl; try done; [by left|].
    intros E. right. eexists; split; [done|]. by destruct (trim s).
Qed.

Lemma accepted_update_or_not b : accepted_update b ∨ ¬ accepted_update b.
Proof.
  unfold accepted_update. rewrite !accepted_field_checks.
  destruct (is_defined (get b (js "title")) && blank (get b (js "title")));
    [right; by intros (? & _)|].
  destruct (is_defined (get b (js "content"))
            && blank (get b (js "content")));
    [right; by intros (_ & ? & _)|].
  destruct (get b (js "title"));
    try (left; repeat split; try done; by left).
  destruct (get b (js "content"));
    try (left; repeat split; try done; by right).
  right. by intros (_ & _ & [? | ?]).
Qed.

(** An update with a valid identity and an accepted body rewrites the
    row of that identity, if there is one, and answers with it. *)
Lemma update_note_accepted id b s :
  invalid_id id = false → accepted_update b →
  update_note id b s
  = match notes s !! to_Z id with
    | Some old =>
        (Response 200 (row_json (to_Z id, patch b old)),
         Store (<[to_Z id := patch b old]> (notes s)) (seq s))
    | None => (Response 404 (error "note not found"), s)
    end.
Proof.
  intros Hid (Ht & Hc & Hsome). unfold update_note, patch.
  rewrite !get_or_empty, Hid.
  apply accepted_field_checks in Ht, Hc. rewrite Ht, Hc.
  destruct (is_defined (get b (js "title"))) eqn:Dt,
           (is_defined (get b (js "content"))) eqn:Dc; simpl;
    try (destruct (notes s !! to_Z id) as [[]|]; simpl;
         unfold getAsync; simpl; by rewrite ?lookup_insert_eq).
  destruct (get b (js "title")); try done.
  destruct (get b (js "content")); try done. by destruct Hsome.
Qed.

Lemma update_note_rejected id b s :
  invalid_id id = true ∨ ¬ accepted_update b →
  ∃ msg, update_note id b s = (Response 400 (error msg), s).
Proof.
  intros H. unfold update_note. rewrite !get_or_empty.
  destruct (invalid_id id); [by eexists|].
  destruct (is_defined (get b (js "title")) && blank (get b (js "title")))
    eqn:Et; [by eexists|].
  destruct (is_defined (get b (js "content"))
            && blank (get b (js "content"))) eqn:Ec; [by eexists|].
  apply accepted_field_checks in Et, Ec.
  destruct (is_defined (get b (js "title"))) eqn:Dt,
           (is_defined (get b (js "content"))) eqn:Dc; simpl;
    try (destruct H as [? | []]; [done|]; repeat split; try done;
         destruct (get b (js "title")), (get b (js "content")); naive_solver).
  by eexists.
Qed.

(** A delete with a valid identity removes the row of that identity, if
    there is one. *)
Lemma delete_note_valid id s :
  invalid_id id = false →
  delete_note id s
  = match notes s !! to_Z id with
    | Some _ =>
        (Response 200 deleted_json, Store (delete (to_Z id) (notes s)) (seq s))
    | None => (Response 404 (error "note not found"), s)
    end.
Proof.
  intros Hid. unfold delete_note. rewrite Hid. simpl.
  by destruct (notes s !! to_Z id).
Qed.

End Handlers.

(* ===================================================================== *)
(** * The properties of the specification *)
(* ===================================================================== *)

Section Rejections.

Implicit Types (id : number) (b : value) (s : store) (clock : Z).

(** C9. An update or a delete whose identity is not a positive integer
    (not an integer, negative, zero, NaN, infinite) is answered
    400 "invalid id" whatever the body and the store are, and the store is
    left as it was; an identity that is a positive integer is never
    answered "invalid id". *)
Theorem identity_must_be_positive_integer id :
  (¬ positive_integer id →
   ∀ b s, update_note id b s = (Response 400 (error "invalid id"), s)
          ∧ delete_note id s = (Response 400 (error "invalid id"), s))
  ∧ (positive_integer id →
     ∀ b s, (update_note id b s).1 ≠ Response 400 (error "invalid id")
            ∧ (delete_note id s).1 ≠ Response 400 (error "invalid id")).
Proof.
  split.
  - intros Hid%invalid_id_true b s. unfold update_note, delete_note.
    by rewrite Hid.
  - intros Hid%invalid_id_false b s. unfold update_note, delete_note.
    rewrite Hid. split.
    + repeat match goal with
             | |- context [if ?c then _ else _] => destruct c
             | |- context [let '(_, _) := ?p in _] => destruct p
             end; simpl; discriminate.
    + destruct (runAsync _ _) as [result s1].
      destruct (changes result =? 0); simpl; discriminate.
Qed.

(** The theorem at the identity 1.5, which is refused, and at 7, which
    passes. *)
Lemma identity_must_be_positive_integer_witness :
  (update_note (Finite (3 # 2)) empty_object empty_store
     = (Response 400 (error "invalid id"), empty_store)
   ∧ delete_note (Finite (3 # 2)) empty_store
     = (Response 400 (error "invalid id"), empty_store))
  ∧ (update_note (of_Z 7) empty_object empty_store).1
      ≠ Response 400 (error "invalid id")
  ∧ (delete_note (of_Z 7) empty_store).1
      ≠ Response 400 (error "invalid id").
Proof.
  split.
  - apply (proj1 (identity_must_be_positive_integer (Finite (3 # 2)))).
    apply invalid_id_true. reflexivity.
  - apply (proj2 (identity_must_be_positive_integer (of_Z 7))).
    apply invalid_id_false. reflexivity.
Defined.

(** Negative numbers, zero, NaN and the infinities are refused as well. *)
Example invalid_identities :
  Forall (λ id, delete_note id empty_store
                  = (Response 400 (error "invalid id"), empty_store))
    [of_Z (-4); of_Z 0; Finite (-1 # 2); NaN; Infinity false; Infinity true].
Proof. repeat constructor. Qed.

(** C6. An update whose body has neither a title nor a content is
    answered 400 and leaves the store as it was, whatever the identity is
    and whether or not a note has it: "invalid id" when the identity is not
    a positive integer, "nothing to update" otherwise. *)
Theorem update_without_fields_is_rejected id b s :
  get b (js "title") = VUndefined →
  get b (js "content") = VUndefined →
  ∃ msg, update_note id b s = (Response 400 (error msg), s)
         ∧ (¬ positive_integer id → msg = "invalid id"%string)
         ∧ (positive_integer id → msg = "nothing to update"%string).
Proof.
  intros Ht Hc. unfold update_note. rewrite !get_or_empty, Ht, Hc. simpl.
  destruct (invalid_id id) eqn:Hid.
  - exists "invalid id"%string. split; [done|]. split; [done|].
    intros H%invalid_id_false. congruence.
  - exists "nothing to update"%string. split; [done|]. split; [|done].
    intros H%invalid_id_true. congruence.
Qed.

(** The theorem at the body [{}], for the identity of a stored note. *)
Lemma update_without_fields_is_rejected_witness :
  let s := Store {[ 1 := Row (js "a") (js "b") (nowIso 0) ]} 1 in
  ∃ msg, update_note (of_Z 1) empty_object s = (Response 400 (error msg), s)
         ∧ (¬ positive_integer (of_Z 1) → msg = "invalid id"%string)
         ∧ (positive_integer (of_Z 1) → msg = "nothing to update"%string).
Proof.
  apply (update_without_fields_is_rejected (of_Z 1) empty_object);
    reflexivity.
Defined.

(** C10. A create whose title or content is not a string, and an update
    that supplies a title or a content that is not a string ([null]
    included), is answered 400 and leaves the store as it was. *)
Theorem non_string_fields_are_rejected b s :
  (is_string (get b (js "title")) = false
   ∨ is_string (get b (js "content")) = false →
   ∀ clock, ∃ msg, create_note clock b s = (Response 400 (error msg), s))
  ∧ ((get b (js "title") ≠ VUndefined
      ∧ is_string (get b (js "title")) = false)
     ∨ (get b (js "content") ≠ VUndefined
        ∧ is_string (get b (js "content")) = false) →
     ∀ id, ∃ msg, update_note id b s = (Response 400 (error msg), s)).
Proof.
  split.
  - intros H clock. unfold create_note. rewrite !get_or_empty.
    destruct (blank (get b (js "title"))) eqn:Et; [by eexists|].
    destruct (blank (get b (js "content"))) eqn:Ec; [by eexists|].
    apply blank_false in Et as (t & Et & _), Ec as (c & Ec & _).
    rewrite Et, Ec in H. by destruct H.
  - intros H id. unfold update_note. rewrite !get_or_empty.
    destruct (invalid_id id); [by eexists|].
    destruct (is_defined (get b (js "title")) && blank (get b (js "title")))
      eqn:Et; [by eexists|].
    destruct (is_defined (get b (js "content"))
              && blank (get b (js "content"))) eqn:Ec; [by eexists|].
    exfalso. destruct H as [[Hd Hs] | [Hd Hs]].
    + destruct (get b (js "title")); simpl in *; done.
    + destruct (get b (js "content")); simpl in *; done.
Qed.

(** The theorem at a create with a numeric title and at an update with a
    [null] content. *)
Lemma non_string_fields_are_rejected_witness :
  (∃ msg, create_note 0
            (VObject [(js "title", VNumber (of_Z 5));
                      (js "content", VString (js "x"))]) empty_store
          = (Response 400 (error msg), empty_store))
  ∧ (∃ msg, update_note (of_Z 1) (VObject [(js "content", VNull)]) empty_store
            = (Response 400 (error msg), empty_store)).
Proof.
  split.
  - apply (proj1 (non_string_fields_are_rejected
                    (VObject [(js "title", VNumber (of_Z 5));
                              (js "content", VString (js "x"))])
                    empty_store)).
    left. reflexivity.
  - apply (proj2 (non_string_fields_are_rejected
                    (VObject [(js "content", VNull)]) empty_store)).
    right. split; [discriminate | reflexivity].
Defined.

(** A number, [null], a boolean, an array and an object as the title of
    a create. *)
Example create_non_string_titles :
  Forall (λ v, create_note 0
                 (VObject [(js "title", v); (js "content", VString (js "x"))])
                 one_note
               = (Response 400 (error "title is required"), one_note))
    [VNumber (of_Z 5); VNull; VBool true; VArray [VString (js "t")];
     VObject [(js "t", VString (js "t"))]].
Proof. repeat constructor. Qed.

(** A supplied [null] is not an omitted field: the update of a stored note
    with a valid title and a [null] content is refused and changes
    nothing. *)
Example update_null_content :
  let s := Store {[ 1 := Row (js "a") (js "b") (nowIso 0) ]} 1 in
  update_note (of_Z 1)
    (VObject [(js "title", VString (js "t")); (js "content", VNull)]) s
  = (Response 400 (error "content must be a non-empty string"), s).
Proof. reflexivity. Qed.

(** C4. A create whose title or content is a string that trims to the
    empty string is answered 400 "<field> is required", where the field
    named is one that is missing, not a string or blank (the title if it
    is one), and nothing is inserted. *)
Theorem create_blank_field_is_rejected clock b s :
  (∃ t, get b (js "title") = VString t ∧ trim t = [])
  ∨ (∃ c, get b (js "content") = VString c ∧ trim c = []) →
  ∃ field : string,
    create_note clock b s
      = (Response 400 (error (field ++ " is required")), s)
    ∧ blank (get b (js field)) = true
    ∧ (field = "title"%string
       ∨ field = "content"%string ∧ blank (get b (js "title")) = false).
Proof.
  intros H. unfold create_note. rewrite !get_or_empty.
  destruct (blank (get b (js "title"))) eqn:Et.
  - exists "title"%string. auto.
  - destruct (blank (get b (js "content"))) eqn:Ec.
    + exists "content"%string. auto.
    + exfalso. apply blank_false in Et as (t & Et & Ht), Ec as (c & Ec & Hc).
      destruct H as [(t' & E & Ht') | (c' & E & Hc')]; congruence.
Qed.

(** The theorem at the title "  ". *)
Lemma create_blank_field_is_rejected_witness :
  ∃ field : string,
    create_note 0
      (VObject [(js "title", VString (js "  "));
                (js "content", VString (js "x"))]) empty_store
      = (Response 400 (error (field ++ " is required")), empty_store)
    ∧ blank (get (VObject [(js "title", VString (js "  "));
                           (js "content", VString (js "x"))]) (js field))
      = true
    ∧ (field = "title"%string
       ∨ field = "content"%string
         ∧ blank (get (VObject [(js "title", VString (js "  "));
                                (js "content", VString (js "x"))])
                    (js "title")) = false).
Proof.
  apply create_blank_field_is_rejected.
  left. exists (js "  "). split; reflexivity.
Defined.

(** A whitespace-only title and a whitespace-only content, evaluated. *)
Example create_whitespace_title :
  create_note 0
    (VObject [(js "title", VString (js "  "));
              (js "content", VString (js "x"))]) empty_store
  = (Response 400 (error "title is required"), empty_store).
Proof. reflexivity. Qed.

Example create_whitespace_content :
  create_note 0
    (VObject [(js "title", VString (js "x"));
              (js "content", VString [9; 32; 160; 8232; 65279]%N)])
    empty_store
  = (Response 400 (error "content is required"), empty_store).
Proof. reflexivity. Qed.

End Rejections.

Section Operations.

Implicit Types (id : number) (b : value) (s : store) (clock k : Z).

(** C1, as stated, fails: the title stored and returned is not the
    trimmed input when that has a surrogate code unit without its partner,
    which the text of the store cannot hold. *)
Lemma create_with_unpaired_surrogate :
  ¬ (∀ clock b s t c,
       get b (js "title") = VString t →
       get b (js "content") = VString c →
       trim t ≠ [] → trim c ≠ [] →
       0 ≤ seq s →
       get (body (create_note clock b s).1) (js "title") = VString (trim t)).
Proof.
  intros H.
  assert (trim [55296%N] ≠ []) as Ht by (vm_compute; discriminate).
  assert (trim (js "x") ≠ []) as Hc by (vm_compute; discriminate).
  assert (0 ≤ seq empty_store) as Hs by (vm_compute; discriminate).
  specialize (H 0 (note_body [55296%N] (js "x")) empty_store
                [55296%N] (js "x") eq_refl eq_refl Ht Hc Hs).
  vm_compute in H. discriminate.
Qed.

(** The create evaluated at a title that is an unpaired high surrogate
    (the JSON text "\ud800"): U+FFFD is stored and returned. *)
Example create_unpaired_surrogate :
  create_note 0 (note_body [55296%N] (js "x")) empty_store
  = (Response 201
       (VObject [(js "id", VNumber (of_Z 1));
                 (js "title", VString [65533%N]);
                 (js "content", VString (js "x"));
                 (js "created_at", VString (js "1970-01-01T00:00:00.000Z"))]),
     Store {[ 1 := Row [65533%N] (js "x")
                       (js "1970-01-01T00:00:00.000Z") ]} 1).
Proof. vm_compute. reflexivity. Qed.

(** A surrogate pair (here U+1F600) is kept. *)
Example create_surrogate_pair :
  create_note 0 (note_body [55357%N; 56832%N] (js "x")) empty_store
  = (Response 201
       (VObject [(js "id", VNumber (of_Z 1));
                 (js "title", VString [55357%N; 56832%N]);
                 (js "content", VString (js "x"));
                 (js "created_at", VString (js "1970-01-01T00:00:00.000Z"))]),
     Store {[ 1 := Row [55357%N; 56832%N] (js "x")
                       (js "1970-01-01T00:00:00.000Z") ]} 1).
Proof. vm_compute. reflexivity. Qed.

(** C1, amended.  A create whose title and content are strings that are
    not empty after trimming is answered 201 with the stored row
    [{id, title, content, created_at}]: its id is the positive rowid the
    store assigned, which no row had; its title and content are the
    trimmed inputs as the text of the store keeps them, every surrogate
    code unit without its partner replaced by U+FFFD, and text without
    such being the trimmed input itself; its created_at is the timestamp
    of the clock reading, in ISO 8601 UTC form.  That row is the one row
    inserted. *)
Theorem create_valid_note clock b s t c :
  get b (js "title") = VString t →
  get b (js "content") = VString c →
  trim t ≠ [] → trim c ≠ [] →
  0 ≤ seq s →
  ∃ id' : Z,
    create_note clock b s
    = (Response 201
         (VObject [(js "id", VNumber (of_Z id'));
                   (js "title", VString (toWellFormed (trim t)));
                   (js "content", VString (toWellFormed (trim c)));
                   (js "created_at", VString (toISOString clock))]),
       Store (<[id' := Row (toWellFormed (trim t)) (toWellFormed (trim c))
                           (toISOString clock)]> (notes s)) id')
    ∧ 0 < id'
    ∧ notes s !! id' = None
    ∧ size (<[id' := Row (toWellFormed (trim t)) (toWellFormed (trim c))
                         (toISOString clock)]> (notes s))
      = S (size (notes s))
    ∧ iso_8601_utc (toISOString clock)
    ∧ (isWellFormed (trim t) = true → toWellFormed (trim t) = trim t)
    ∧ (isWellFormed (trim c) = true → toWellFormed (trim c) = trim c).
Proof.
  intros Ht Hc Hnt Hnc Hseq. exists (next_rowid s).
  assert (blank (get b (js "title")) = false) as Bt
    by (apply blank_false; eauto).
  assert (blank (get b (js "content")) = false) as Bc
    by (apply blank_false; eauto).
  rewrite (create_note_accepted clock b s Bt Bc), Ht, Hc. simpl.
  split; [done|]. split; [by apply next_rowid_positive|].
  split; [apply next_rowid_fresh|].
  split; [apply map_size_insert_None, next_rowid_fresh|].
  split; [apply toISOString_shape|].
  split; apply toWellFormed_fixed.
Qed.

(** The theorem at the first create of the specification's scenario, with
    a padded title. *)
Lemma create_valid_note_witness :
  ∃ id' : Z,
    create_note 1768826096789
      (VObject [(js "title", VString (js " Groceries "));
                (js "content", VString (js "Milk, eggs"))]) empty_store
    = (Response 201
         (VObject [(js "id", VNumber (of_Z id'));
                   (js "title", VString (js "Groceries"));
                   (js "content", VString (js "Milk, eggs"));
                   (js "created_at",
                    VString (js "2026-01-19T12:34:56.789Z"))]),
       Store (<[id' := Row (js "Groceries") (js "Milk, eggs")
                           (js "2026-01-19T12:34:56.789Z")]>
                (notes empty_store)) id')
    ∧ 0 < id'
    ∧ notes empty_store !! id' = None
    ∧ size (<[id' := Row (js "Groceries") (js "Milk, eggs")
                         (js "2026-01-19T12:34:56.789Z")]>
              (notes empty_store))
      = S (size (notes empty_store))
    ∧ iso_8601_utc (js "2026-01-19T12:34:56.789Z")
    ∧ (isWellFormed (js "Groceries") = true
       → js "Groceries" = js "Groceries")
    ∧ (isWellFormed (js "Milk, eggs") = true
       → js "Milk, eggs" = js "Milk, eggs").
Proof.
  apply (create_valid_note 1768826096789
           (VObject [(js "title", VString (js " Groceries "));
                     (js "content", VString (js "Milk, eggs"))])
           empty_store (js " Groceries ") (js "Milk, eggs"));
    [reflexivity | reflexivity | | | ].
  - vm_compute. discriminate.
  - vm_compute. discriminate.
  - vm_compute. discriminate.
Defined.

(** The create evaluated: the first note of a new database has id 1. *)
Example create_groceries :
  create_note 1768826096789
    (VObject [(js "title", VString (js " Groceries "));
              (js "content", VString (js "Milk, eggs"))]) empty_store
  = (Response 201
       (VObject [(js "id", VNumber (of_Z 1));
                 (js "title", VString (js "Groceries"));
                 (js "content", VString (js "Milk, eggs"));
                 (js "created_at", VString (js "2026-01-19T12:34:56.789Z"))]),
     Store {[ 1 := Row (js "Groceries") (js "Milk, eggs")
                       (js "2026-01-19T12:34:56.789Z") ]} 1).
Proof. vm_compute. reflexivity. Qed.

(** C2. The list is answered 200 with the array of all stored notes as
    objects [{id, title, content, created_at}], each note once, every note
    before the ones with an earlier created_at and, among those with the
    same created_at, before the ones with a smaller id; the store is left
    as it was. *)
Theorem list_returns_all_notes_in_order s :
  ∃ rows,
    handle GET_notes s
    = (Response 200
         (VArray ((λ n : Z * row,
                     VObject [(js "id", VNumber (of_Z n.1));
                              (js "title", VString (title n.2));
                              (js "content", VString (content n.2));
                              (js "created_at", VString (created_at n.2))])
                  <$> rows)),
       s)
    ∧ (∀ k r, (k, r) ∈ rows ↔ notes s !! k = Some r)
    ∧ NoDup rows.*1
    ∧ length rows = size (notes s)
    ∧ StronglySorted strictly_before rows.
Proof.
  exists (allAsync s). split; [done|].
  split; [apply elem_of_allAsync|].
  split; [apply allAsync_NoDup|].
  split; [|apply allAsync_sorted].
  by rewrite allAsync_Permutation, length_map_to_list.
Qed.

(** C5. An update answered 200 has rewritten one row, the one of the
    request's identity: the new row keeps created_at, keeps the title when
    the body has none and has the trimmed title of the body, as the text
    of the store keeps it, otherwise, and likewise for the content; the
    row stays under its id, the other rows and the sequence are as they
    were, and the answer is the new row
    [{id, title, content, created_at}]. *)
Theorem update_changes_supplied_fields_only id b s resp s' :
  update_note id b s = (resp, s') →
  status resp = 200 →
  ∃ k old new,
    denotes id k ∧ 0 < k
    ∧ notes s !! k = Some old
    ∧ s' = Store (<[k := new]> (notes s)) (seq s)
    ∧ resp = Response 200
               (VObject [(js "id", VNumber (of_Z k));
                         (js "title", VString (title new));
                         (js "content", VString (content new));
                         (js "created_at", VString (created_at new))])
    ∧ created_at new = created_at old
    ∧ (get b (js "title") = VUndefined → title new = title old)
    ∧ (∀ t, get b (js "title") = VString t →
            title new = toWellFormed (trim t))
    ∧ (get b (js "content") = VUndefined → content new = content old)
    ∧ (∀ c, get b (js "content") = VString c →
            content new = toWellFormed (trim c))
    ∧ (∀ k', k' ≠ k → notes s' !! k' = notes s !! k').
Proof.
  intros Hu Hst.
  destruct (invalid_id id) eqn:Hid.
  { destruct (update_note_rejected id b s) as [msg E]; [by left|].
    rewrite E in Hu. by injection Hu as <- <-. }
  destruct (accepted_update_or_not b) as [Hb | Hb]; cycle 1.
  { destruct (update_note_rejected id b s) as [msg E]; [by right|].
    rewrite E in Hu. by injection Hu as <- <-. }
  rewrite (update_note_accepted id b s Hid Hb) in Hu.
  apply invalid_id_false in Hid as (k & Hk & Hd).
  rewrite (denotes_to_Z _ _ Hd) in Hu.
  destruct (notes s !! k) as [old|] eqn:Hold; cycle 1.
  { by injection Hu as <- <-. }
  injection Hu as <- <-. exists k, old, (patch b old).
  repeat split; try done; simpl.
  - by intros ->.
  - by intros t ->.
  - by intros ->.
  - by intros c ->.
  - intros k' Hne. by rewrite lookup_insert_ne.
Qed.

(** The theorem at the update of the specification's scenario: only the
    content of note 1 changes. *)
Lemma update_changes_supplied_fields_only_witness :
  ∃ k old new,
    denotes (of_Z 1) k ∧ 0 < k
    ∧ notes one_note !! k = Some old
    ∧ (update_note (of_Z 1) more_groceries one_note).2
      = Store (<[k := new]> (notes one_note)) (seq one_note)
    ∧ (update_note (of_Z 1) more_groceries one_note).1
      = Response 200
          (VObject [(js "id", VNumber (of_Z k));
                    (js "title", VString (title new));
                    (js "content", VString (content new));
                    (js "created_at", VString (created_at new))])
    ∧ created_at new = created_at old
    ∧ (get more_groceries (js "title") = VUndefined → title new = title old)
    ∧ (∀ t, get more_groceries (js "title") = VString t →
            title new = toWellFormed (trim t))
    ∧ (get more_groceries (js "content") = VUndefined
       → content new = content old)
    ∧ (∀ c, get more_groceries (js "content") = VString c →
            content new = toWellFormed (trim c))
    ∧ (∀ k', k' ≠ k →
       notes (update_note (of_Z 1) more_groceries one_note).2 !! k'
       = notes one_note !! k').
Proof.
  apply (update_changes_supplied_fields_only (of_Z 1) more_groceries one_note).
  - vm_compute. reflexivity.
  - vm_compute. reflexivity.
Defined.

(** An update of the title to an unpaired low surrogate stores U+FFFD. *)
Example update_unpaired_surrogate :
  update_note (of_Z 1) (title_body [56320%N]) one_note
  = (Response 200
       (VObject [(js "id", VNumber (of_Z 1));
                 (js "title", VString [65533%N]);
                 (js "content", VString (js "Milk, eggs"));
                 (js "created_at", VString (js "2026-01-19T12:34:56.789Z"))]),
     Store {[ 1 := Row [65533%N] (js "Milk, eggs")
                       (js "2026-01-19T12:34:56.789Z") ]} 1).
Proof. vm_compute. reflexivity. Qed.

Example update_groceries :
  update_note (of_Z 1) more_groceries one_note
  = (Response 200
       (VObject [(js "id", VNumber (of_Z 1));
                 (js "title", VString (js "Groceries"));
                 (js "content", VString (js "Milk, eggs, bread"));
                 (js "created_at", VString (js "2026-01-19T12:34:56.789Z"))]),
     Store {[ 1 := Row (js "Groceries") (js "Milk, eggs, bread")
                       (js "2026-01-19T12:34:56.789Z") ]} 1).
Proof. vm_compute. reflexivity. Qed.

(** C7, as stated, fails: an update of an identity that no note has is
    answered 400, not 404, when its body has no field. *)
Lemma update_of_missing_note_without_fields :
  ¬ (∀ id b s,
       positive_integer id → notes s !! to_Z id = None →
       status (update_note id b s).1 = 404).
Proof.
  intros H.
  specialize (H (of_Z 99999) empty_object empty_store).
  assert (positive_integer (of_Z 99999)) as Hp
    by (apply invalid_id_false; reflexivity).
  specialize (H Hp eq_refl). vm_compute in H. discriminate.
Qed.

Example update_99999_empty_body :
  update_note (of_Z 99999) empty_object empty_store
  = (Response 400 (error "nothing to update"), empty_store).
Proof. reflexivity. Qed.

(** C7, amended.  For a positive integer identity that no note has, a
    delete, and an update whose body passes the checks of the fields, is
    answered 404 "note not found" and leaves the store as it was; and a
    delete of a stored note is answered 200, after which the same delete
    is answered 404. *)
Theorem missing_note_is_not_found id k s :
  denotes id k → 0 < k →
  (notes s !! k = None →
   delete_note id s = (Response 404 (error "note not found"), s)
   ∧ ∀ b, accepted_update b →
          update_note id b s = (Response 404 (error "note not found"), s))
  ∧ (is_Some (notes s !! k) →
     (delete_note id s).1 = Response 200 deleted_json
     ∧ delete_note id (delete_note id s).2
       = (Response 404 (error "note not found"), (delete_note id s).2)).
Proof.
  intros Hd Hk.
  assert (invalid_id id = false) as Hid
    by (apply invalid_id_false; by exists k).
  pose proof (denotes_to_Z _ _ Hd) as Ek.
  split.
  - intros Hnone. split.
    + by rewrite (delete_note_valid _ _ Hid), Ek, Hnone.
    + intros b Hb. by rewrite (update_note_accepted _ _ _ Hid Hb), Ek, Hnone.
  - intros [r Hr]. rewrite (delete_note_valid _ s Hid), Ek, Hr. simpl.
    split; [done|].
    rewrite (delete_note_valid _ _ Hid), Ek. simpl.
    by rewrite lookup_delete_eq.
Qed.

(** The theorem at the identity 99999 in a new database and at the
    identity 1 of the scenario's note. *)
Lemma missing_note_is_not_found_witness :
  (delete_note (of_Z 99999) empty_store
   = (Response 404 (error "note not found"), empty_store)
   ∧ ∀ b, accepted_update b →
          update_note (of_Z 99999) b empty_store
          = (Response 404 (error "note not found"), empty_store))
  ∧ ((delete_note (of_Z 1) one_note).1 = Response 200 deleted_json
     ∧ delete_note (of_Z 1) (delete_note (of_Z 1) one_note).2
       = (Response 404 (error "note not found"),
          (delete_note (of_Z 1) one_note).2)).
Proof.
  split.
  - apply (proj1 (missing_note_is_not_found (of_Z 99999) 99999 empty_store
                    eq_refl eq_refl)).
    reflexivity.
  - apply (proj2 (missing_note_is_not_found (of_Z 1) 1 one_note
                    eq_refl eq_refl)).
    by exists (Row (js "Groceries") (js "Milk, eggs")
                   (js "2026-01-19T12:34:56.789Z")).
Defined.

Example update_99999 :
  update_note (of_Z 99999) more_groceries one_note
  = (Response 404 (error "note not found"), one_note).
Proof. vm_compute. reflexivity. Qed.

End Operations.

Section Invariants.

Implicit Types (id : number) (b : value) (s : store) (r : request) (k : Z).

(** Every request changes the store by one of the four steps. *)
Lemma handle_step r s : step s (handle r s).2.
Proof.
  destruct r as [|clock b|id b|id]; simpl.
  - constructor.
  - destruct (blank (get b (js "title"))) eqn:Bt;
      [|destruct (blank (get b (js "content"))) eqn:Bc].
    + destruct (create_note_rejected clock b s) as [msg ->]; [auto|].
      constructor.
    + destruct (create_note_rejected clock b s) as [msg ->]; [auto|].
      constructor.
    + rewrite (create_note_accepted clock b s Bt Bc). simpl.
      constructor;
        [by apply toWellFormed_clean, trimmed_clean..
        | apply toISOString_shape].
  - destruct (invalid_id id) eqn:Hid.
    { destruct (update_note_rejected id b s) as [msg ->]; [auto|].
      constructor. }
    destruct (accepted_update_or_not b) as [Hb | Hb]; cycle 1.
    { destruct (update_note_rejected id b s) as [msg ->]; [auto|].
      constructor. }
    rewrite (update_note_accepted id b s Hid Hb).
    destruct (notes s !! to_Z id) as [old|] eqn:Hold; simpl;
      [|constructor].
    destruct Hb as (Ht & Hc & _).
    apply accepted_field_checks in Ht, Hc.
    apply step_update with (old := old); [done | done | |]; simpl.
    + destruct (is_defined (get b (js "title"))); [|by left].
      right. by apply toWellFormed_clean, trimmed_clean.
    + destruct (is_defined (get b (js "content"))); [|by left].
      right. by apply toWellFormed_clean, trimmed_clean.
  - destruct (invalid_id id) eqn:Hid.
    { unfold delete_note. rewrite Hid. constructor. }
    rewrite (delete_note_valid id s Hid).
    destruct (notes s !! to_Z id); simpl; constructor.
Qed.

Lemma step_stored_clean s s' : step s s' → stored_clean s → stored_clean s'.
Proof.
  intros Hstep Hs.
  destruct Hstep as [|t c at_ Ht Hc _|k old new Hold _ Ht Hc|k];
    intros j r; simpl.
  - apply Hs.
  - rewrite lookup_insert. case_decide; [|apply Hs]. by intros [= <-].
  - rewrite lookup_insert. case_decide; [|apply Hs]. intros [= <-].
    destruct (Hs _ _ Hold) as [Hto Hco].
    split; [destruct Ht as [-> | ?] | destruct Hc as [-> | ?]]; done.
  - rewrite lookup_delete. case_decide; [done | apply Hs].
Qed.

Lemma step_seq s s' : step s s' → seq s ≤ seq s'.
Proof.
  destruct 1; simpl; try lia. pose proof (next_rowid_gt_seq s). lia.
Qed.

Lemma step_remembers k at_ s s' :
  step s s' → remembers k at_ s → remembers k at_ s'.
Proof.
  intros Hstep [Hseq Hat].
  destruct Hstep as [|t c at' _ _ _|j old new Hold Hnew _ _|j]; split; simpl;
    try done.
  - pose proof (next_rowid_gt_seq s). lia.
  - intros r. rewrite lookup_insert_ne; [apply Hat|].
    pose proof (next_rowid_gt_seq s). lia.
  - intros r. rewrite lookup_insert. case_decide; [|apply Hat].
    intros [= <-]. subst j. rewrite Hnew. by apply Hat.
  - intros r. rewrite lookup_delete. case_decide; [done | apply Hat].
Qed.

(** A property that every step keeps holds after every sequence of
    requests. *)
Lemma run_invariant (P : store → Prop) :
  (∀ s s', step s s' → P s → P s') →
  ∀ rs s, P s → P (run rs s).
Proof.
  intros Hstep rs. induction rs as [|r rs IH]; intros s Hs; [done|].
  simpl. apply IH. eapply Hstep; [apply handle_step | done].
Qed.

(** C3. The stored title and content of every note are equal to their
    own trim and are not empty, in every state that requests bring a new
    database to; and every request keeps it so, from any store where it
    is so. *)
Theorem stored_texts_are_clean :
  (∀ s, reachable s → stored_clean s)
  ∧ (∀ r s, stored_clean s → stored_clean (handle r s).2).
Proof.
  split.
  - intros s [rs ->]. apply (run_invariant stored_clean).
    + apply step_stored_clean.
    + intros k r. simpl. by rewrite lookup_empty.
  - intros r s. apply step_stored_clean, handle_step.
Qed.

(** The theorem at the store after a create with padded texts and an
    update. *)
Lemma stored_texts_are_clean_witness :
  stored_clean
    (run [POST_notes 0 (VObject [(js "title", VString (js "  a  "));
                                 (js "content", VString (js " b"))]);
          PUT_note (of_Z 1) (VObject [(js "title", VString (js " c d "))])]
       empty_store).
Proof.
  apply (proj1 stored_texts_are_clean). by eexists.
Defined.

(** The sequence of a reachable store is not negative, so every create
    there gets a positive id. *)
Lemma reachable_seq s : reachable s → 0 ≤ seq s.
Proof.
  intros [rs ->]. apply (run_invariant (λ s, 0 ≤ seq s)); [|done].
  intros s s' Hstep%step_seq. lia.
Qed.

Lemma step_stored_stamped s s' :
  step s s' → stored_stamped s → stored_stamped s'.
Proof.
  intros Hstep Hs.
  destruct Hstep as [|t c at_ _ _ Hat|k old new Hold Hnew _ _|k];
    intros j r; simpl.
  - apply Hs.
  - rewrite lookup_insert. case_decide; [|apply Hs]. by intros [= <-].
  - rewrite lookup_insert. case_decide; [|apply Hs]. intros [= <-].
    rewrite Hnew. by eapply Hs.
  - rewrite lookup_delete. case_decide; [done | apply Hs].
Qed.

(** The created_at of every note of a reachable store is a timestamp of
    [toISOString], text in ASCII, on which the order of code units is the
    order of the store's collation. *)
Lemma reachable_stamped s : reachable s → stored_stamped s.
Proof.
  intros [rs ->]. apply (run_invariant stored_stamped).
  - apply step_stored_stamped.
  - intros k r. simpl. by rewrite lookup_empty.
Qed.

Lemma row_json_inj (n n' : Z * row) : row_json n = row_json n' → n = n'.
Proof.
  destruct n as [k [t c a]], n' as [k' [t' c' a']]. unfold row_json. simpl.
  intros [= ? ? ? ?]. by subst.
Qed.

(** A create answered 201 with the note [n] has stored [n] under the next
    rowid, which the new store remembers. *)
Lemma create_note_created clock b s n s' :
  create_note clock b s = (Response 201 (row_json n), s') →
  n.1 = next_rowid s ∧ remembers n.1 (created_at n.2) s'
  ∧ notes s' !! n.1 = Some n.2 ∧ step s s'.
Proof.
  intros Hc. pose proof (handle_step (POST_notes clock b) s) as Hstep.
  simpl in Hstep. rewrite Hc in Hstep. simpl in Hstep.
  destruct (blank (get b (js "title"))) eqn:Bt;
    [|destruct (blank (get b (js "content"))) eqn:Bc].
  - destruct (create_note_rejected clock b s) as [msg E]; [auto|].
    rewrite E in Hc. discriminate.
  - destruct (create_note_rejected clock b s) as [msg E]; [auto|].
    rewrite E in Hc. discriminate.
  - rewrite (create_note_accepted clock b s Bt Bc) in Hc.
    pose proof (f_equal (λ p, body p.1) Hc) as Hn.
    apply (f_equal snd) in Hc. simpl in Hn, Hc.
    apply row_json_inj in Hn. subst n s'. simpl.
    split; [done|]. split; [|split; [apply lookup_insert_eq | done]].
    split; simpl; [lia|]. intros r. rewrite lookup_insert_eq. by intros [= <-].
Qed.

Lemma create_note_created_at clock b s n s' :
  create_note clock b s = (Response 201 (row_json n), s') →
  created_at n.2 = nowIso clock.
Proof.
  intros Hc.
  destruct (blank (get b (js "title"))) eqn:Bt;
    [|destruct (blank (get b (js "content"))) eqn:Bc].
  - destruct (create_note_rejected clock b s) as [msg E]; [auto|].
    rewrite E in Hc. discriminate.
  - destruct (create_note_rejected clock b s) as [msg E]; [auto|].
    rewrite E in Hc. discriminate.
  - rewrite (create_note_accepted clock b s Bt Bc) in Hc.
    pose proof (f_equal (λ p, body p.1) Hc) as Hn. simpl in Hn.
    apply row_json_inj in Hn. by subst n.
Qed.

(** Two notes created at clock readings of the years 0000 to 9999, the
    second reading not before the first: the created_at of the second is
    not earlier than that of the first. *)
Lemma created_at_follows_clock clock1 b1 s n1 s1 clock2 b2 s' n2 s2 :
  create_note clock1 b1 s = (Response 201 (row_json n1), s1) →
  create_note clock2 b2 s' = (Response 201 (row_json n2), s2) →
  four_digit_years clock1 → four_digit_years clock2 → clock1 ≤ clock2 →
  text_compare (created_at n1.2) (created_at n2.2) ≠ Gt.
Proof.
  intros -> %create_note_created_at -> %create_note_created_at.
  apply toISOString_mono.
Qed.

(** C8. Let a create return the note N1 and a later create return the
    note N2, with any requests between them and after them, and let the
    created_at of N2 be no earlier than that of N1.  Then the id of N2 is
    greater than the id of N1, and a list lists N2 before N1 for as long
    as both are stored.  (By [created_at_follows_clock] the created_at of
    N2 is no earlier when the clock readings are in the order of the
    requests, within the years 0000 to 9999.) *)
Theorem later_note_is_listed_first
    s0 clock1 b1 n1 s1 between clock2 b2 n2 s2 after :
  create_note clock1 b1 s0 = (Response 201 (row_json n1), s1) →
  create_note clock2 b2 (run between s1) = (Response 201 (row_json n2), s2) →
  text_compare (created_at n1.2) (created_at n2.2) ≠ Gt →
  n1.1 < n2.1
  ∧ ∀ row1 row2 : row,
      notes (run after s2) !! n1.1 = Some row1 →
      notes (run after s2) !! n2.1 = Some row2 →
      ∃ items,
        (handle GET_notes (run after s2)).1 = Response 200 (VArray items)
        ∧ listed_before (row_json (n2.1, row2)) (row_json (n1.1, row1)) items.
Proof.
  intros (_ & Hr1 & _ & _)%create_note_created
         (Hid2 & Hr2 & _ & Hstep2)%create_note_created Hle.
  apply (run_invariant _ (step_remembers _ _) between) in Hr1.
  assert (n1.1 < n2.1) as Hlt.
  { destruct Hr1 as [Hseq _].
    pose proof (next_rowid_gt_seq (run between s1)). lia. }
  split; [done|]. intros row1 row2 H1 H2.
  apply (step_remembers _ _ _ _ Hstep2) in Hr1.
  apply (run_invariant _ (step_remembers _ _) after) in Hr1, Hr2.
  destruct Hr1 as [_ Hat1], Hr2 as [_ Hat2].
  specialize (Hat1 _ H1). specialize (Hat2 _ H2).
  exists (row_json <$> allAsync (run after s2)). split; [done|].
  apply listed_before_fmap.
  assert (strictly_before (n2.1, row2) (n1.1, row1)) as Hbefore.
  { unfold strictly_before. simpl. rewrite Hat1, Hat2.
    destruct (text_compare (created_at n1.2) (created_at n2.2)) eqn:E.
    - right. apply text_compare_eq in E. split; [done | lia].
    - by left.
    - done. }
  apply (sorted_listed_before strictly_before).
  - apply allAsync_sorted.
  - by apply elem_of_allAsync.
  - by apply elem_of_allAsync.
  - done.
  - by apply strictly_before_asym.
Qed.

(** The theorem at two creates within the same millisecond, with an
    update of the first note between them: the ids 1 and 2 decide. *)
Lemma later_note_is_listed_first_witness :
  1 < 2
  ∧ ∀ row1 row2 : row,
      notes (create_note 1768826096789 groceries
               (run [PUT_note (of_Z 1) more_groceries] one_note)).2 !! 1
      = Some row1 →
      notes (create_note 1768826096789 groceries
               (run [PUT_note (of_Z 1) more_groceries] one_note)).2 !! 2
      = Some row2 →
      ∃ items,
        (handle GET_notes
           (create_note 1768826096789 groceries
              (run [PUT_note (of_Z 1) more_groceries] one_note)).2).1
        = Response 200 (VArray items)
        ∧ listed_before (row_json (2, row2)) (row_json (1, row1)) items.
Proof.
  apply (later_note_is_listed_first
           empty_store 1768826096789 groceries
           (1, Row (js "Groceries") (js "Milk, eggs")
                   (js "2026-01-19T12:34:56.789Z"))
           one_note
           [PUT_note (of_Z 1) more_groceries]
           1768826096789 groceries
           (2, Row (js "Groceries") (js "Milk, eggs")
                   (js "2026-01-19T12:34:56.789Z"))
           (create_note 1768826096789 groceries
              (run [PUT_note (of_Z 1) more_groceries] one_note)).2
           []).
  - vm_compute. reflexivity.
  - vm_compute. reflexivity.
  - vm_compute. discriminate.
Defined.

(** The list after the two creates, evaluated. *)
Example list_two_notes :
  (handle GET_notes
     (run [POST_notes 1768826096789 groceries;
           POST_notes 1768826096789 groceries] empty_store)).1
  = Response 200
      (VArray
         [row_json (2, Row (js "Groceries") (js "Milk, eggs")
                           (js "2026-01-19T12:34:56.789Z"));
          row_json (1, Row (js "Groceries") (js "Milk, eggs")
                           (js "2026-01-19T12:34:56.789Z"))]).
Proof. vm_compute. reflexivity. Qed.

(** The scenario of the specification ends with an empty list. *)
Example scenario :
  handle GET_notes
    (run [POST_notes 1768826096789 groceries;
          PUT_note (of_Z 1) more_groceries;
          DELETE_note (of_Z 1)] empty_store)
  = (Response 200 (VArray []), Store ∅ 1).
Proof. vm_compute. reflexivity. Qed.

End Invariants.

(* ===================================================================== *)
(** * Further properties of the handlers *)
(* ===================================================================== *)

Section Identities.

Implicit Types (id : number) (b : value) (s : store) (r : request) (k : Z).

Lemma step_well_formed s s' : step s s' → well_formed s → well_formed s'.
Proof.
  intros Hstep [Hseq Hk]. pose proof (next_rowid_gt_seq s) as Hnext.
  destruct Hstep as [|t c at_ _ _ _|j old new Hold _ _ _|j]; split; simpl;
    try done; try lia; intros k r.
  - rewrite lookup_insert. case_decide; [intros _; lia|].
    intros ?%Hk. lia.
  - rewrite lookup_insert. case_decide; [|apply Hk].
    intros _. subst. by eapply Hk.
  - rewrite lookup_delete. case_decide; [done | apply Hk].
Qed.

Lemma run_seq rs s : seq s ≤ seq (run rs s).
Proof.
  apply (run_invariant (λ s', seq s ≤ seq s')); [|done].
  intros s1 s2 Hstep%step_seq. lia.
Qed.

(** X1. The stores that requests bring a new database to are well
    formed: every id is positive and not above the sequence; and every
    request keeps a well-formed store well formed. *)
Theorem reachable_stores_are_well_formed :
  (∀ s, reachable s → well_formed s)
  ∧ (∀ r s, well_formed s → well_formed (handle r s).2).
Proof.
  split.
  - intros s [rs ->]. apply (run_invariant well_formed).
    + apply step_well_formed.
    + split; simpl; [done|]. intros k r. by rewrite lookup_empty.
  - intros r s. apply step_well_formed, handle_step.
Qed.

(** The theorem at the store after two creates and a delete. *)
Lemma reachable_stores_are_well_formed_witness :
  well_formed
    (run [POST_notes 0 groceries; POST_notes 1 groceries;
          DELETE_note (of_Z 1)] empty_store).
Proof.
  apply (proj1 reachable_stores_are_well_formed). by eexists.
Defined.

(** X2. An id is never given twice: a create, after any requests, returns
    an id greater than every id the store held before them, deleted since
    or not. *)
Theorem ids_are_never_reused s k (old : row) rs clock b n s' :
  well_formed s →
  notes s !! k = Some old →
  create_note clock b (run rs s) = (Response 201 (row_json n), s') →
  k < n.1.
Proof.
  intros [_ Hk] Hold (Hn & _)%create_note_created.
  pose proof (Hk _ _ Hold). pose proof (run_seq rs s).
  pose proof (next_rowid_gt_seq (run rs s)). lia.
Qed.

(** The theorem at the scenario's note, deleted before the next
    create. *)
Lemma ids_are_never_reused_witness :
  1 < (2, Row (js "Groceries") (js "Milk, eggs")
              (js "2026-01-19T12:34:56.789Z")).1.
Proof.
  apply (ids_are_never_reused one_note 1
           (Row (js "Groceries") (js "Milk, eggs")
                (js "2026-01-19T12:34:56.789Z"))
           [DELETE_note (of_Z 1)] 1768826096789 groceries
           (2, Row (js "Groceries") (js "Milk, eggs")
                   (js "2026-01-19T12:34:56.789Z"))
           (Store {[ 2 := Row (js "Groceries") (js "Milk, eggs")
                              (js "2026-01-19T12:34:56.789Z") ]} 2)).
  - split; [vm_compute; discriminate|]. intros k r.
    unfold one_note. simpl. rewrite lookup_singleton.
    case_decide; [|done]. intros _. subst. split; [reflexivity|].
    vm_compute. discriminate.
  - reflexivity.
  - vm_compute. reflexivity.
Defined.

(** X3. The created_at of a note never changes: after any requests, the
    note of an id, if it is still stored, has the created_at it had. *)
Theorem created_at_is_immutable s k (old new : row) rs :
  well_formed s →
  notes s !! k = Some old →
  notes (run rs s) !! k = Some new →
  created_at new = created_at old.
Proof.
  intros [_ Hk] Hold Hnew.
  assert (remembers k (created_at old) s) as Hr.
  { split; [by eapply Hk|]. intros r. rewrite Hold. by intros [= <-]. }
  apply (run_invariant _ (step_remembers _ _) rs) in Hr as [_ Hr].
  by apply Hr.
Qed.

(** The theorem at the scenario's note after an update of both fields
    and another create. *)
Lemma created_at_is_immutable_witness :
  created_at (Row (js "a") (js "b") (js "2026-01-19T12:34:56.789Z"))
  = created_at (Row (js "Groceries") (js "Milk, eggs")
                    (js "2026-01-19T12:34:56.789Z")).
Proof.
  apply (created_at_is_immutable one_note 1 _ _
           [PUT_note (of_Z 1) (note_body (js " a ") (js "b"));
            POST_notes 0 groceries]).
  - split; [vm_compute; discriminate|]. intros k r.
    unfold one_note. simpl. rewrite lookup_singleton.
    case_decide; [|done]. intros _. subst. split; [reflexivity|].
    vm_compute. discriminate.
  - reflexivity.
  - vm_compute. reflexivity.
Defined.

End Identities.

Section Answers.

Implicit Types (id : number) (b : value) (s : store) (r : request) (k : Z).

Lemma one_note_well_formed : well_formed one_note.
Proof.
  split; [vm_compute; discriminate|]. intros k r.
  unfold one_note. simpl. rewrite lookup_singleton.
  case_decide; [|done]. intros _. subst. split; [reflexivity|].
  vm_compute. discriminate.
Qed.

(** What a handler answers: 200 or 201, or 400 or 404 with an error
    message and the store as it was. *)
Lemma handle_answers r s :
  status (handle r s).1 = 200 ∨ status (handle r s).1 = 201
  ∨ ((status (handle r s).1 = 400 ∨ status (handle r s).1 = 404)
     ∧ (∃ msg, body (handle r s).1 = error msg) ∧ (handle r s).2 = s).
Proof.
  destruct r as [|clock b|id b|id]; simpl.
  - by left.
  - destruct (blank (get b (js "title"))) eqn:Bt;
      [|destruct (blank (get b (js "content"))) eqn:Bc].
    + destruct (create_note_rejected clock b s) as [msg ->]; [auto|].
      right; right. simpl. eauto.
    + destruct (create_note_rejected clock b s) as [msg ->]; [auto|].
      right; right. simpl. eauto.
    + rewrite (create_note_accepted clock b s Bt Bc). simpl. auto.
  - destruct (invalid_id id) eqn:Hid.
    { destruct (update_note_rejected id b s) as [msg ->]; [auto|].
      right; right. simpl. eauto. }
    destruct (accepted_update_or_not b) as [Hb | Hb]; cycle 1.
    { destruct (update_note_rejected id b s) as [msg ->]; [auto|].
      right; right. simpl. eauto. }
    rewrite (update_note_accepted id b s Hid Hb).
    destruct (notes s !! to_Z id); simpl; [auto|].
    right; right. eauto.
  - destruct (invalid_id id) eqn:Hid.
    { unfold delete_note. rewrite Hid. right; right. simpl. eauto. }
    rewrite (delete_note_valid id s Hid).
    destruct (notes s !! to_Z id); simpl; [auto|].
    right; right. eauto.
Qed.

(** X4. Every request is answered 200, 201, 400 or 404; an answer 400 or
    404 carries [{error: message}] and leaves the store as it was, and so
    does every list. *)
Theorem refused_requests_change_nothing r s :
  (status (handle r s).1 = 200 ∨ status (handle r s).1 = 201
   ∨ status (handle r s).1 = 400 ∨ status (handle r s).1 = 404)
  ∧ (status (handle r s).1 = 400 ∨ status (handle r s).1 = 404 →
     (handle r s).2 = s ∧ ∃ msg, body (handle r s).1 = error msg)
  ∧ (r = GET_notes → (handle r s).2 = s).
Proof.
  split; [|split].
  - destruct (handle_answers r s) as [? | [? | ([? | ?] & _)]]; auto.
  - intros Hst.
    destruct (handle_answers r s) as [E | [E | (_ & ? & ?)]]; [| |done];
      rewrite E in Hst; by destruct Hst.
  - by intros ->.
Qed.

(** The theorem at a create without content and at a delete of a note
    that is not stored. *)
Lemma refused_requests_change_nothing_witness :
  ((handle (POST_notes 0 (title_body (js "t"))) one_note).2 = one_note
   ∧ ∃ msg, body (handle (POST_notes 0 (title_body (js "t"))) one_note).1
            = error msg)
  ∧ ((handle (DELETE_note (of_Z 2)) one_note).2 = one_note
     ∧ ∃ msg, body (handle (DELETE_note (of_Z 2)) one_note).1 = error msg).
Proof.
  split.
  - apply (proj1 (proj2 (refused_requests_change_nothing
                           (POST_notes 0 (title_body (js "t"))) one_note))).
    left. reflexivity.
  - apply (proj1 (proj2 (refused_requests_change_nothing
                           (DELETE_note (of_Z 2)) one_note))).
    right. reflexivity.
Defined.

Lemma patch_patch b (old : row) : patch b (patch b old) = patch b old.
Proof.
  unfold patch. simpl.
  by destruct (is_defined (get b (js "title"))),
              (is_defined (get b (js "content"))).
Qed.

(** X5. An update is idempotent: sent again, it is answered as before and
    leaves the store as the first one left it. *)
Theorem update_twice_is_update_once id b s :
  update_note id b (update_note id b s).2 = update_note id b s.
Proof.
  destruct (invalid_id id) eqn:Hid.
  { destruct (update_note_rejected id b s) as [msg E]; [auto|].
    by rewrite E. }
  destruct (accepted_update_or_not b) as [Hb | Hb]; cycle 1.
  { destruct (update_note_rejected id b s) as [msg E]; [auto|].
    by rewrite E. }
  rewrite (update_note_accepted id b s Hid Hb).
  destruct (notes s !! to_Z id) as [old|] eqn:Hold; simpl.
  - rewrite (update_note_accepted id b _ Hid Hb). simpl.
    by rewrite lookup_insert_eq, patch_patch, insert_insert_eq.
  - by rewrite (update_note_accepted id b s Hid Hb), Hold.
Qed.

Lemma same_up_to_trim_checks v v' :
  same_up_to_trim v v' →
  is_defined v = is_defined v' ∧ blank v = blank v' ∧ trimmed v = trimmed v'.
Proof.
  intros [-> | (t & t' & -> & -> & E)]; [done|]. simpl. by rewrite E.
Qed.

(** X6. Surrounding white space in a title or a content is immaterial:
    two bodies whose fields differ in it only get the same answer and lead
    to the same store, on create and on update. *)
Theorem padding_is_immaterial b b' s :
  same_up_to_trim (get b (js "title")) (get b' (js "title")) →
  same_up_to_trim (get b (js "content")) (get b' (js "content")) →
  (∀ clock, create_note clock b s = create_note clock b' s)
  ∧ (∀ id, update_note id b s = update_note id b' s).
Proof.
  intros (Dt & Bt & Tt)%same_up_to_trim_checks
         (Dc & Bc & Tc)%same_up_to_trim_checks.
  split.
  - intros clock. unfold create_note.
    by rewrite !get_or_empty, Bt, Bc, Tt, Tc.
  - intros id. unfold update_note, push_update.
    by rewrite !get_or_empty, Dt, Dc, Bt, Bc, Tt, Tc.
Qed.

(** The theorem at a padded and a trimmed body. *)
Lemma padding_is_immaterial_witness :
  (∀ clock,
     create_note clock (note_body (js "  a b ") (js " c")) one_note
     = create_note clock (note_body (js "a b") (js "c")) one_note)
  ∧ (∀ id,
       update_note id (note_body (js "  a b ") (js " c")) one_note
       = update_note id (note_body (js "a b") (js "c")) one_note).
Proof.
  apply padding_is_immaterial.
  - right. exists (js "  a b "), (js "a b"). repeat split; reflexivity.
  - right. exists (js " c"), (js "c"). repeat split; reflexivity.
Defined.

End Answers.

Section Bodies.

Implicit Types (id : number) (b : value) (s : store) (t c : jsstring).

Lemma get_absent_or_array b key :
  b = VUndefined ∨ b = empty_object ∨ (∃ items, b = VArray items) →
  get b key = VUndefined.
Proof. by intros [-> | [-> | [items ->]]]. Qed.

(** X7. A request without a body ([req.body] undefined, or [{}] as the
    body parser may leave it) and a request whose body is a JSON array
    have neither a title nor a content: a create is answered
    400 "title is required", an update of a valid identity
    400 "nothing to update", and the store is left as it was. *)
Theorem absent_or_array_body b s :
  b = VUndefined ∨ b = empty_object ∨ (∃ items, b = VArray items) →
  (∀ clock,
     create_note clock b s = (Response 400 (error "title is required"), s))
  ∧ (∀ id, positive_integer id →
       update_note id b s = (Response 400 (error "nothing to update"), s)).
Proof.
  intros Hb. split.
  - intros clock. unfold create_note.
    by rewrite !get_or_empty, !get_absent_or_array.
  - intros id Hid%invalid_id_false. unfold update_note.
    by rewrite !get_or_empty, !get_absent_or_array, Hid.
Qed.

(** The theorem at a request without a body and at the body
    [["Groceries", "Milk"]]. *)
Lemma absent_or_array_body_witness :
  ((∀ clock,
      create_note clock VUndefined one_note
      = (Response 400 (error "title is required"), one_note))
   ∧ (∀ id, positive_integer id →
        update_note id VUndefined one_note
        = (Response 400 (error "nothing to update"), one_note)))
  ∧ ((∀ clock,
        create_note clock
          (VArray [VString (js "Groceries"); VString (js "Milk")]) one_note
        = (Response 400 (error "title is required"), one_note))
     ∧ (∀ id, positive_integer id →
          update_note id
            (VArray [VString (js "Groceries"); VString (js "Milk")]) one_note
          = (Response 400 (error "nothing to update"), one_note))).
Proof.
  split.
  - apply absent_or_array_body. by left.
  - apply absent_or_array_body. right; right. by eexists.
Defined.

(** X8. An update of a valid identity names the first field at fault,
    whether or not a note has the identity: a supplied title that is not
    a string or is blank is reported as such whatever the content is, and
    so is a supplied content when the title is absent or accepted. *)
Theorem update_reports_the_first_bad_field id b s :
  positive_integer id →
  (get b (js "title") ≠ VUndefined → blank (get b (js "title")) = true →
   update_note id b s
   = (Response 400 (error "title must be a non-empty string"), s))
  ∧ (accepted_field (get b (js "title")) →
     get b (js "content") ≠ VUndefined →
     blank (get b (js "content")) = true →
     update_note id b s
     = (Response 400 (error "content must be a non-empty string"), s)).
Proof.
  intros Hid%invalid_id_false. split.
  - intros Hd Hb. unfold update_note. rewrite !get_or_empty, Hid, Hb.
    by destruct (get b (js "title")).
  - intros Ht%accepted_field_checks Hd Hb. unfold update_note.
    rewrite !get_or_empty, Hid, Ht, Hb.
    by destruct (get b (js "content")).
Qed.

(** The theorem at a blank title with a valid content, and at a valid
    title with a numeric content, for an identity that no note has. *)
Lemma update_reports_the_first_bad_field_witness :
  update_note (of_Z 5) (note_body (js " ") (js "c")) one_note
  = (Response 400 (error "title must be a non-empty string"), one_note)
  ∧ update_note (of_Z 5)
      (VObject [(js "title", VString (js "t"));
                (js "content", VNumber (of_Z 3))]) one_note
    = (Response 400 (error "content must be a non-empty string"), one_note).
Proof.
  split.
  - apply (proj1 (update_reports_the_first_bad_field (of_Z 5)
                    (note_body (js " ") (js "c")) one_note
                    (ex_intro _ 5 (conj eq_refl eq_refl))));
      [discriminate | reflexivity].
  - apply (proj2 (update_reports_the_first_bad_field (of_Z 5)
                    (VObject [(js "title", VString (js "t"));
                              (js "content", VNumber (of_Z 3))]) one_note
                    (ex_intro _ 5 (conj eq_refl eq_refl)))).
    + right. exists (js "t"). split; [reflexivity | discriminate].
    + discriminate.
    + reflexivity.
Defined.

Lemma accepted_note_body t c :
  trim t ≠ [] → trim c ≠ [] →
  accepted_update (note_body t c) ∧ accepted_update (title_body t)
  ∧ accepted_update (content_body c).
Proof.
  intros Ht Hc.
  repeat split; try (by left); try (by right; eauto);
    by (left + right).
Qed.

(** X9. An update of the title and the content at once does what an
    update of the title followed by an update of the content does: the
    same store, and the answer of the second. *)
Theorem update_of_both_fields_is_two_updates id t c s :
  trim t ≠ [] → trim c ≠ [] →
  update_note id (note_body t c) s
  = update_note id (content_body c) (update_note id (title_body t) s).2.
Proof.
  intros Ht Hc. destruct (accepted_note_body t c Ht Hc) as (Hb & Hbt & Hbc).
  destruct (invalid_id id) eqn:Hid.
  { unfold update_note. by rewrite Hid. }
  rewrite (update_note_accepted id _ s Hid Hb),
          (update_note_accepted id _ s Hid Hbt).
  destruct (notes s !! to_Z id) as [old|] eqn:Hold; simpl.
  - rewrite (update_note_accepted id _ _ Hid Hbc). simpl.
    by rewrite lookup_insert_eq, insert_insert_eq.
  - by rewrite (update_note_accepted id _ _ Hid Hbc), Hold.
Qed.

(** The theorem at the scenario's note. *)
Lemma update_of_both_fields_is_two_updates_witness :
  update_note (of_Z 1) (note_body (js "Shopping") (js " Bread ")) one_note
  = update_note (of_Z 1) (content_body (js " Bread "))
      (update_note (of_Z 1) (title_body (js "Shopping")) one_note).2.
Proof.
  apply update_of_both_fields_is_two_updates; vm_compute; discriminate.
Defined.

End Bodies.

Section Listings.

Implicit Types (id : number) (b : value) (s : store) (k : Z)
  (l : list (Z * row)).

Lemma allAsync_NoDup_rows s : NoDup (allAsync s).
Proof. apply (NoDup_fmap_1 fst), allAsync_NoDup. Qed.

(** The rows of the table, each once, in the order of the query: there
    is one such list. *)
Lemma listing_unique s l :
  (∀ k r, (k, r) ∈ l ↔ notes s !! k = Some r) →
  NoDup l → StronglySorted strictly_before l →
  l = allAsync s.
Proof.
  intros Hin Hnd Hs.
  apply (StronglySorted_unique_strong strictly_before);
    [|done|apply allAsync_sorted|].
  - intros x1 x2 _ _ H1 H2. by destruct (strictly_before_asym _ _ H1).
  - apply NoDup_Permutation; [done | apply allAsync_NoDup_rows |].
    intros [k r]. by rewrite Hin, elem_of_allAsync.
Qed.

Lemma StronglySorted_filter {A} (R : relation A) (P : A → Prop)
    `{∀ x, Decision (P x)} (l : list A) :
  StronglySorted R l → StronglySorted R (filter P l).
Proof.
  induction 1 as [|x l Hs IH Hx]; [constructor|].
  rewrite filter_cons. case_decide; [|done]. constructor; [done|].
  rewrite Forall_forall in Hx |- *.
  intros y [_ Hy]%list_elem_of_filter. by apply Hx.
Qed.

(** The store a create answered 201 leaves. *)
Lemma create_note_store clock b s n s' :
  create_note clock b s = (Response 201 (row_json n), s') →
  n.1 = next_rowid s ∧ s' = Store (<[n.1 := n.2]> (notes s)) n.1.
Proof.
  intros Hc.
  destruct (blank (get b (js "title"))) eqn:Bt;
    [|destruct (blank (get b (js "content"))) eqn:Bc].
  - destruct (create_note_rejected clock b s) as [msg E]; [auto|].
    rewrite E in Hc. discriminate.
  - destruct (create_note_rejected clock b s) as [msg E]; [auto|].
    rewrite E in Hc. discriminate.
  - rewrite (create_note_accepted clock b s Bt Bc) in Hc.
    pose proof (f_equal (λ p, body p.1) Hc) as Hn.
    apply (f_equal snd) in Hc. simpl in Hn, Hc.
    apply row_json_inj in Hn. by subst n s'.
Qed.

(** X10. The answer of the list is determined by the notes stored: any
    arrangement of them by created_at descending, then id descending, is
    the list, so two notes of the same created_at never come in either
    order. *)
Theorem list_order_is_determined s l :
  l ≡ₚ map_to_list (notes s) →
  StronglySorted strictly_before l →
  handle GET_notes s = (Response 200 (VArray (row_json <$> l)), s).
Proof.
  intros Hp Hs. simpl. unfold list_notes.
  rewrite (listing_unique s l); [done| |by rewrite Hp; apply NoDup_map_to_list|done].
  intros k r. by rewrite Hp, elem_of_map_to_list.
Qed.

(** The theorem at two notes of the same created_at. *)
Lemma list_order_is_determined_witness :
  handle GET_notes
    (Store (<[2 := Row (js "b") (js "b") (nowIso 0)]>
              {[ 1 := Row (js "a") (js "a") (nowIso 0) ]}) 2)
  = (Response 200
       (VArray (row_json <$> [(2, Row (js "b") (js "b") (nowIso 0));
                              (1, Row (js "a") (js "a") (nowIso 0))])),
     Store (<[2 := Row (js "b") (js "b") (nowIso 0)]>
              {[ 1 := Row (js "a") (js "a") (nowIso 0) ]}) 2).
Proof.
  apply list_order_is_determined.
  - simpl. rewrite map_to_list_insert by reflexivity.
    by rewrite map_to_list_singleton.
  - apply SSorted_cons; [apply SSorted_cons; constructor|].
    apply List.Forall_cons; [|constructor].
    right. split; [reflexivity|]. simpl. lia.
Defined.

(** X11. A note that a create returns is read back under its id and is
    in the next list, which has one note more and still has every note
    stored before. *)
Theorem created_note_is_listed clock b s n s' :
  create_note clock b s = (Response 201 (row_json n), s') →
  getAsync n.1 s' = Some n
  ∧ ∃ items,
      handle GET_notes s' = (Response 200 (VArray items), s')
      ∧ row_json n ∈ items
      ∧ length items = S (size (notes s))
      ∧ ∀ k r, notes s !! k = Some r → row_json (k, r) ∈ items.
Proof.
  intros Hc. destruct n as [kn rn].
  apply create_note_store in Hc as [Hn ->]. simpl in Hn |- *.
  pose proof (next_rowid_fresh s) as Hfresh. rewrite <- Hn in Hfresh.
  split.
  - unfold getAsync. simpl. by rewrite lookup_insert_eq.
  - eexists. split; [reflexivity|]. split; [|split].
    + apply list_elem_of_fmap_2, elem_of_allAsync. simpl.
      apply lookup_insert_eq.
    + rewrite length_fmap, allAsync_Permutation, length_map_to_list. simpl.
      by apply map_size_insert_None.
    + intros k r Hk. apply (list_elem_of_fmap_2 row_json _ (k, r)).
      apply elem_of_allAsync. simpl.
      rewrite lookup_insert_ne; [done|]. intros <-. congruence.
Qed.

(** The theorem at a second create in the scenario's store. *)
Lemma created_note_is_listed_witness :
  getAsync 2 (create_note 5 (note_body (js "t") (js "c")) one_note).2
  = Some (2, Row (js "t") (js "c") (nowIso 5))
  ∧ ∃ items,
      handle GET_notes (create_note 5 (note_body (js "t") (js "c")) one_note).2
      = (Response 200 (VArray items),
         (create_note 5 (note_body (js "t") (js "c")) one_note).2)
      ∧ row_json (2, Row (js "t") (js "c") (nowIso 5)) ∈ items
      ∧ length items = S (size (notes one_note))
      ∧ ∀ k r, notes one_note !! k = Some r → row_json (k, r) ∈ items.
Proof.
  apply (created_note_is_listed 5 (note_body (js "t") (js "c")) one_note
           (2, Row (js "t") (js "c") (nowIso 5))).
  vm_compute. reflexivity.
Defined.

End Listings.

Section Positions.

Implicit Types (id : number) (b : value) (s : store) (k : Z)
  (l : list (Z * row)).

(** X12. A note created with a created_at that is not earlier than that
    of any stored note is the first of the next list, before the notes of
    the list as it was, in their order. *)
Theorem newest_note_is_listed_first clock b s n s' :
  create_note clock b s = (Response 201 (row_json n), s') →
  (∀ k r, notes s !! k = Some r →
          text_compare (created_at r) (created_at n.2) ≠ Gt) →
  ∃ items,
    handle GET_notes s = (Response 200 (VArray items), s)
    ∧ handle GET_notes s' = (Response 200 (VArray (row_json n :: items)), s').
Proof.
  intros Hc Hlast. destruct n as [kn rn].
  apply create_note_store in Hc as [Hn ->]. simpl in Hn, Hlast.
  pose proof (next_rowid_fresh s) as Hfresh. rewrite <- Hn in Hfresh.
  eexists. split; [reflexivity|]. simpl. unfold list_notes.
  rewrite <- (listing_unique _ ((kn, rn) :: allAsync s)); [done| | |].
  - intros k r. rewrite elem_of_cons, elem_of_allAsync. simpl.
    rewrite lookup_insert. case_decide as Hk.
    + subst k. split.
      * intros [E | ?]; [injection E; congruence | congruence].
      * intros [= ->]. by left.
    + split; [|by right].
      intros [E | ?]; [injection E; congruence | done].
  - apply NoDup_cons. split; [|apply allAsync_NoDup_rows].
    rewrite elem_of_allAsync. congruence.
  - constructor; [apply allAsync_sorted|].
    apply Forall_forall. intros [k r] Hk%elem_of_allAsync.
    unfold strictly_before. simpl.
    pose proof (next_rowid_gt_key _ _ _ Hk).
    destruct (text_compare (created_at r) (created_at rn)) eqn:E.
    + right. apply text_compare_eq in E. split; [done | lia].
    + by left.
    + by destruct (Hlast _ _ Hk).
Qed.

(** The theorem at a second note in the scenario's store, created a
    millisecond after the first. *)
Lemma newest_note_is_listed_first_witness :
  ∃ items,
    handle GET_notes one_note = (Response 200 (VArray items), one_note)
    ∧ handle GET_notes
        (create_note 1768826096790 (note_body (js "t") (js "c")) one_note).2
      = (Response 200
           (VArray (row_json (2, Row (js "t") (js "c") (nowIso 1768826096790))
                    :: items)),
         (create_note 1768826096790 (note_body (js "t") (js "c")) one_note).2).
Proof.
  apply (newest_note_is_listed_first 1768826096790
           (note_body (js "t") (js "c")) one_note
           (2, Row (js "t") (js "c") (nowIso 1768826096790))).
  - vm_compute. reflexivity.
  - intros k r. unfold one_note. simpl. rewrite lookup_singleton.
    case_decide; [|done]. intros [= <-]. vm_compute. discriminate.
Defined.

(** X13. An update does not move a note: whatever it is answered, the ids
    of the list come in the order they came in before. *)
Theorem update_keeps_the_order id b s :
  (allAsync (update_note id b s).2).*1 = (allAsync s).*1.
Proof.
  destruct (invalid_id id) eqn:Hid.
  { destruct (update_note_rejected id b s) as [msg E]; [auto|].
    by rewrite E. }
  destruct (accepted_update_or_not b) as [Hb | Hb]; cycle 1.
  { destruct (update_note_rejected id b s) as [msg E]; [auto|].
    by rewrite E. }
  rewrite (update_note_accepted id b s Hid Hb).
  destruct (notes s !! to_Z id) as [old|] eqn:Hold; [|done]. simpl.
  set (k := to_Z id) in *.
  set (f := λ p : Z * row, if decide (p.1 = k) then (p.1, patch b p.2) else p).
  assert (∀ p, (f p).1 = p.1) as Hfst
    by (intros p; unfold f; by case_decide).
  assert (∀ p, created_at (f p).2 = created_at p.2) as Hat
    by (intros p; unfold f; by case_decide).
  assert ((f <$> allAsync s).*1 = (allAsync s).*1) as Hids.
  { rewrite <- list_fmap_compose. apply list_fmap_ext.
    intros i p _. apply Hfst. }
  rewrite <- Hids. f_equal. symmetry. apply listing_unique.
  - intros j r. simpl. rewrite list_elem_of_fmap, lookup_insert. split.
    + intros ([j' r'] & E & Hin%elem_of_allAsync). unfold f in E.
      simpl in E. case_decide as Hj.
      * injection E as -> ->. rewrite decide_True by done. congruence.
      * injection E as -> ->. by rewrite decide_False.
    + case_decide as Hj.
      * intros [= <-]. subst j. exists (k, old).
        split; [|by apply elem_of_allAsync].
        unfold f. simpl. by rewrite decide_True.
      * intros Hr. exists (j, r). split; [|by apply elem_of_allAsync].
        unfold f. simpl. by rewrite decide_False.
  - apply (NoDup_fmap_1 fst). rewrite Hids. apply allAsync_NoDup.
  - apply (StronglySorted_fmap _ strictly_before strictly_before);
      [|apply allAsync_sorted].
    intros x y. unfold strictly_before. by rewrite !Hfst, !Hat.
Qed.

(** X14. A delete answered 200 has removed the one note of its identity:
    the other notes and the sequence are as they were, and the list is the
    list as it was without that note. *)
Theorem delete_removes_one_note id s resp s' :
  delete_note id s = (resp, s') →
  status resp = 200 →
  ∃ k old,
    denotes id k ∧ 0 < k
    ∧ notes s !! k = Some old
    ∧ resp = Response 200 deleted_json
    ∧ s' = Store (delete k (notes s)) (seq s)
    ∧ (∀ k', k' ≠ k → notes s' !! k' = notes s !! k')
    ∧ allAsync s' = filter (λ p, p.1 ≠ k) (allAsync s).
Proof.
  intros Hd Hst.
  destruct (invalid_id id) eqn:Hid.
  { unfold delete_note in Hd. rewrite Hid in Hd. by injection Hd as <- <-. }
  rewrite (delete_note_valid id s Hid) in Hd.
  apply invalid_id_false in Hid as (k & Hk & Hden).
  rewrite (denotes_to_Z _ _ Hden) in Hd.
  destruct (notes s !! k) as [old|] eqn:Hold; cycle 1.
  { by injection Hd as <- <-. }
  injection Hd as <- <-. exists k, old.
  repeat split; try done.
  - intros k' Hne. simpl. by rewrite lookup_delete_ne.
  - symmetry. apply listing_unique.
    + intros j r. simpl.
      rewrite list_elem_of_filter, elem_of_allAsync, lookup_delete. simpl.
      case_decide as Hj.
      * split; [|done]. intros [Hne _]. by destruct Hne.
      * split; [by intros [_ ?]|]. intros Hr. split; [congruence | done].
    + apply NoDup_filter, allAsync_NoDup_rows.
    + apply StronglySorted_filter, allAsync_sorted.
Qed.

(** The theorem at the delete of the scenario. *)
Lemma delete_removes_one_note_witness :
  ∃ k old,
    denotes (of_Z 1) k ∧ 0 < k
    ∧ notes one_note !! k = Some old
    ∧ (delete_note (of_Z 1) one_note).1 = Response 200 deleted_json
    ∧ (delete_note (of_Z 1) one_note).2
      = Store (delete k (notes one_note)) (seq one_note)
    ∧ (∀ k', k' ≠ k →
       notes (delete_note (of_Z 1) one_note).2 !! k' = notes one_note !! k')
    ∧ allAsync (delete_note (of_Z 1) one_note).2
      = filter (λ p, p.1 ≠ k) (allAsync one_note).
Proof.
  apply (delete_removes_one_note (of_Z 1) one_note).
  - vm_compute. reflexivity.
  - vm_compute. reflexivity.
Defined.

(** X15. A create followed by the delete of the note it returned leaves
    the notes as they were before the create; the id is spent, the
    sequence stays at it. *)
Theorem create_then_delete clock b s n s1 :
  0 ≤ seq s →
  create_note clock b s = (Response 201 (row_json n), s1) →
  delete_note (of_Z n.1) s1 = (Response 200 deleted_json, Store (notes s) n.1)
  ∧ seq s < n.1.
Proof.
  intros Hseq [Hn ->]%create_note_store.
  pose proof (next_rowid_gt_seq s) as Hgt. rewrite <- Hn in Hgt.
  pose proof (next_rowid_fresh s) as Hfresh. rewrite <- Hn in Hfresh.
  split; [|done].
  assert (denotes (of_Z n.1) n.1) as Hden by reflexivity.
  assert (invalid_id (of_Z n.1) = false) as Hid.
  { apply invalid_id_false. exists n.1. split; [lia | done]. }
  rewrite (delete_note_valid _ _ Hid), (denotes_to_Z _ _ Hden). simpl.
  by rewrite lookup_insert_eq, delete_insert_id.
Qed.

(** The theorem at a second create in the scenario's store. *)
Lemma create_then_delete_witness :
  delete_note (of_Z (2, Row (js "t") (js "c") (nowIso 5)).1)
    (create_note 5 (note_body (js "t") (js "c")) one_note).2
  = (Response 200 deleted_json,
     Store (notes one_note) (2, Row (js "t") (js "c") (nowIso 5)).1)
  ∧ seq one_note < (2, Row (js "t") (js "c") (nowIso 5)).1.
Proof.
  apply (create_then_delete 5 (note_body (js "t") (js "c")) one_note).
  - vm_compute. discriminate.
  - vm_compute. reflexivity.
Defined.

End Positions.

Section Clock.

Implicit Types (t m n z : Z) (p q : Z * Z * Z).

Lemma date_compare_refl p : date_compare p p = Eq.
Proof. unfold date_compare. by rewrite !Z.compare_refl. Qed.

Lemma date_compare_antisym p q :
  date_compare q p = CompOpp (date_compare p q).
Proof.
  unfold date_compare.
  rewrite (Z.compare_antisym p.1.1 q.1.1), (Z.compare_antisym p.1.2 q.1.2),
          (Z.compare_antisym p.2 q.2).
  destruct (p.1.1 ?= q.1.1); simpl; try done.
  by destruct (p.1.2 ?= q.1.2).
Qed.

(** Dates compare as their days do. *)
Lemma civil_compare z z' : date_compare (civil z) (civil z') = (z ?= z').
Proof.
  destruct (Z.compare_spec z z') as [-> | Hlt | Hgt].
  - apply date_compare_refl.
  - by apply civil_mono.
  - rewrite date_compare_antisym, (civil_mono _ _ Hgt). done.
Qed.

(** The fields of the time of day compare as the time of day does. *)
Lemma time_fields_compare m n :
  0 ≤ m < msPerDay → 0 ≤ n < msPerDay →
  match m / 3600000 ?= n / 3600000 with
  | Eq => match m / 60000 mod 60 ?= n / 60000 mod 60 with
          | Eq => match m / 1000 mod 60 ?= n / 1000 mod 60 with
                  | Eq => match m mod 1000 ?= n mod 1000 with
                          | Eq => Eq
                          | c => c
                          end
                  | c => c
                  end
          | c => c
          end
  | c => c
  end = (m ?= n).
Proof.
  unfold msPerDay. intros Hm Hn. symmetry.
  destruct (Z.compare_spec (m / 3600000) (n / 3600000));
    [| apply Z.compare_lt_iff; Z.div_mod_to_equations; lia
     | apply Z.compare_gt_iff; Z.div_mod_to_equations; lia].
  destruct (Z.compare_spec (m / 60000 mod 60) (n / 60000 mod 60));
    [| apply Z.compare_lt_iff; Z.div_mod_to_equations; lia
     | apply Z.compare_gt_iff; Z.div_mod_to_equations; lia].
  destruct (Z.compare_spec (m / 1000 mod 60) (n / 1000 mod 60));
    [| apply Z.compare_lt_iff; Z.div_mod_to_equations; lia
     | apply Z.compare_gt_iff; Z.div_mod_to_equations; lia].
  destruct (Z.compare_spec (m mod 1000) (n mod 1000));
    [ apply Z.compare_eq_iff; Z.div_mod_to_equations; lia
    | apply Z.compare_lt_iff; Z.div_mod_to_equations; lia
    | apply Z.compare_gt_iff; Z.div_mod_to_equations; lia].
Qed.

(** Time values compare by day, then by time of day. *)
Lemma day_then_time_compare t t' :
  match Day t ?= Day t' with
  | Eq => TimeWithinDay t ?= TimeWithinDay t'
  | c => c
  end = (t ?= t').
Proof.
  unfold Day, TimeWithinDay, msPerDay. symmetry.
  destruct (Z.compare_spec (t / 86400000) (t' / 86400000));
    [| apply Z.compare_lt_iff; Z.div_mod_to_equations; lia
     | apply Z.compare_gt_iff; Z.div_mod_to_equations; lia].
  destruct (Z.compare_spec (t mod 86400000) (t' mod 86400000));
    [ apply Z.compare_eq_iff; Z.div_mod_to_equations; lia
    | apply Z.compare_lt_iff; Z.div_mod_to_equations; lia
    | apply Z.compare_gt_iff; Z.div_mod_to_equations; lia].
Qed.

Ltac within_digits :=
  match goal with
  | |- _ ≤ _ < 10 ^ Z.of_nat ?w =>
      let k := eval vm_compute in (10 ^ Z.of_nat w) in
      change (10 ^ Z.of_nat w) with k;
      Z.div_mod_to_equations; lia
  end.

(** X16. In the years 0000 to 9999 the timestamps of [nowIso] are ordered
    as text the way the clock readings are ordered in time: a later
    reading gives a later timestamp, and two readings give the same
    timestamp only if they are the same. *)
Theorem nowIso_orders_as_time clock1 clock2 :
  four_digit_years clock1 → four_digit_years clock2 →
  text_compare (nowIso clock1) (nowIso clock2) = (clock1 ?= clock2).
Proof.
  intros H1 H2. unfold nowIso.
  rewrite (toISOString_four_digits _ H1), (toISOString_four_digits _ H2).
  pose proof (four_digit_year _ H1) as Hy.
  pose proof (four_digit_year _ H2) as Hy'.
  pose proof (civil_is_date (Day clock1)) as [Hm Hd].
  pose proof (civil_is_date (Day clock2)) as [Hm' Hd'].
  pose proof (Z.mod_pos_bound clock1 msPerDay eq_refl) as Hms.
  pose proof (Z.mod_pos_bound clock2 msPerDay eq_refl) as Hms'.
  fold (TimeWithinDay clock1) in Hms. fold (TimeWithinDay clock2) in Hms'.
  pose proof (time_fields_compare _ _ Hms Hms') as Htime.
  unfold msPerDay in Hms, Hms'.
  repeat (rewrite field_compare, ?text_compare_prefix by within_digits).
  rewrite text_compare_refl, Htime.
  rewrite <- (day_then_time_compare clock1 clock2),
          <- (civil_compare (Day clock1) (Day clock2)).
  unfold date_compare.
  destruct ((civil (Day clock1)).1.1 ?= (civil (Day clock2)).1.1); try done.
  by destruct ((civil (Day clock1)).1.2 ?= (civil (Day clock2)).1.2).
Qed.

(** The theorem at two readings a millisecond apart, across the end of
    a year. *)
Lemma nowIso_orders_as_time_witness :
  text_compare (nowIso 1767225599999) (nowIso 1767225600000)
  = (1767225599999 ?= 1767225600000).
Proof.
  apply nowIso_orders_as_time; split; vm_compute; discriminate.
Defined.

Example nowIso_new_year :
  nowIso 1767225599999 = js "2025-12-31T23:59:59.999Z"
  ∧ nowIso 1767225600000 = js "2026-01-01T00:00:00.000Z".
Proof. split; reflexivity. Qed.

End Clock.

Section Statuses.

Implicit Types (id : number) (b : value) (s : store) (k : Z).

Lemma stored_lookup id s :
  positive_integer id → stored id s ↔ is_Some (notes s !! to_Z id).
Proof.
  intros (k & _ & Hk). rewrite (denotes_to_Z _ _ Hk). split.
  - intros (k' & Hk' & Hs).
    pose proof (denotes_to_Z _ _ Hk). pose proof (denotes_to_Z _ _ Hk').
    assert (k' = k) as <- by congruence. exact Hs.
  - intros Hs. by exists k.
Qed.

Lemma accepted_create_checks b :
  accepted_create b
  ↔ blank (get b (js "title")) = false ∧ blank (get b (js "content")) = false.
Proof.
  rewrite !blank_false. split.
  - intros (t & c & Et & Ec & Ht & Hc). split; [by exists t | by exists c].
  - intros [(t & Et & Ht) (c & Ec & Hc)]. by exists t, c.
Qed.

(** X17. A create is answered 201 exactly when its title and its content
    are strings that are not blank, and 400 otherwise. *)
Theorem create_status clock b s :
  (status (create_note clock b s).1 = 201 ↔ accepted_create b)
  ∧ (status (create_note clock b s).1 = 400 ↔ ¬ accepted_create b).
Proof.
  rewrite accepted_create_checks.
  destruct (blank (get b (js "title"))) eqn:Bt;
    [|destruct (blank (get b (js "content"))) eqn:Bc].
  - destruct (create_note_rejected clock b s) as [msg ->]; [auto|]. simpl.
    split; split; [done | by intros [? _] | by intros _ [? _] | done].
  - destruct (create_note_rejected clock b s) as [msg ->]; [auto|]. simpl.
    split; split; [done | by intros [_ ?] | by intros _ [_ ?] | done].
  - rewrite (create_note_accepted clock b s Bt Bc). simpl.
    split; split; [done | done | done | intros H; by destruct H].
Qed.

(** X18. An update is answered 400 exactly when its identity is not a
    positive integer or its body does not pass the checks, 404 exactly
    when both are in order and no note has the identity, and 200 exactly
    when both are in order and a note has it. *)
Theorem update_status id b s :
  (status (update_note id b s).1 = 400
   ↔ ¬ positive_integer id ∨ ¬ accepted_update b)
  ∧ (status (update_note id b s).1 = 404
     ↔ positive_integer id ∧ accepted_update b ∧ ¬ stored id s)
  ∧ (status (update_note id b s).1 = 200
     ↔ positive_integer id ∧ accepted_update b ∧ stored id s).
Proof.
  destruct (invalid_id id) eqn:Hid.
  { destruct (update_note_rejected id b s) as [msg ->]; [auto|]. simpl.
    apply invalid_id_true in Hid.
    split; [|split]; split;
      [by left | done | done | by intros [? _] | done | by intros [? _]]. }
  destruct (accepted_update_or_not b) as [Hb | Hb]; cycle 1.
  { destruct (update_note_rejected id b s) as [msg ->]; [auto|]. simpl.
    split; [|split]; split;
      [by right | done | done | by intros (_ & ? & _)
      | done | by intros (_ & ? & _)]. }
  rewrite (update_note_accepted id b s Hid Hb).
  apply invalid_id_false in Hid as Hpos.
  rewrite (stored_lookup id s Hpos).
  destruct (notes s !! to_Z id) as [old|] eqn:Hold; simpl.
  - split; [|split]; split;
      [done | intros [H | H]; by destruct H | done
      | intros (_ & _ & Hn); destruct Hn; eauto
      | intros _; split; [done | split; [done | eauto]] | done].
  - split; [|split]; split;
      [done | intros [H | H]; by destruct H
      | intros _; split; [done | split; [done | by intros [? ?]]] | done
      | done | by intros (_ & _ & [? ?])].
Qed.

(** X19. A delete is answered 400 exactly when its identity is not a
    positive integer, 404 exactly when it is one and no note has it, and
    200 exactly when a note has it. *)
Theorem delete_status id s :
  (status (delete_note id s).1 = 400 ↔ ¬ positive_integer id)
  ∧ (status (delete_note id s).1 = 404
     ↔ positive_integer id ∧ ¬ stored id s)
  ∧ (status (delete_note id s).1 = 200
     ↔ positive_integer id ∧ stored id s).
Proof.
  destruct (invalid_id id) eqn:Hid.
  { unfold delete_note. rewrite Hid. simpl. apply invalid_id_true in Hid.
    split; [|split]; split;
      [done | done | done | by intros [? _] | done | by intros [? _]]. }
  rewrite (delete_note_valid id s Hid).
  apply invalid_id_false in Hid as Hpos.
  rewrite (stored_lookup id s Hpos).
  destruct (notes s !! to_Z id) as [old|] eqn:Hold; simpl.
  - split; [|split]; split;
      [done | intros H; by destruct H | done
      | intros (_ & Hn); destruct Hn; eauto
      | intros _; split; eauto | done].
  - split; [|split]; split;
      [done | intros H; by destruct H
      | intros _; split; [done | by intros [? ?]] | done
      | done | by intros (_ & [? ?])].
Qed.

(** The three theorems in the scenario's store: the create of the
    scenario, an update and a delete of an identity that no note has. *)
Lemma create_status_witness :
  status (create_note 0 groceries one_note).1 = 201
  ↔ accepted_create groceries.
Proof. apply (proj1 (create_status 0 groceries one_note)). Defined.

Lemma update_status_witness :
  status (update_note (of_Z 2) more_groceries one_note).1 = 404
  ↔ positive_integer (of_Z 2) ∧ accepted_update more_groceries
    ∧ ¬ stored (of_Z 2) one_note.
Proof.
  apply (proj1 (proj2 (update_status (of_Z 2) more_groceries one_note))).
Defined.

Lemma delete_status_witness :
  status (delete_note (of_Z 2) one_note).1 = 404
  ↔ positive_integer (of_Z 2) ∧ ¬ stored (of_Z 2) one_note.
Proof. apply (proj1 (proj2 (delete_status (of_Z 2) one_note))). Defined.

(** The three answers of an update and of a delete, evaluated in the
    scenario's store. *)
Example statuses_of_update :
  status (update_note (of_Z 0) more_groceries one_note).1 = 400
  ∧ status (update_note (of_Z 1) (title_body (js " ")) one_note).1 = 400
  ∧ status (update_note (of_Z 2) more_groceries one_note).1 = 404
  ∧ status (update_note (of_Z 1) more_groceries one_note).1 = 200.
Proof. repeat split; vm_compute; reflexivity. Qed.

Example statuses_of_delete :
  status (delete_note (Finite (1 # 2)) one_note).1 = 400
  ∧ status (delete_note (of_Z 2) one_note).1 = 404
  ∧ status (delete_note (of_Z 1) one_note).1 = 200.
Proof. repeat split; vm_compute; reflexivity. Qed.

End Statuses.
